(** * ModularPlantCVPipelinesMPS: channels, stages and the pipeline

    A shallow embedding of [StageChannel.py], [DataTypes.py],
    [StageConfig.py], [Stage.py] and [Pipeline.py].  Python exceptions are
    results of type [res]; the PlantCV library ([from plantcv import plantcv
    as pcv]) is a record of collaborator functions; the channel identifiers,
    which the source draws with [getrandbits(256)] when [StageChannel] is
    imported, are a function of the entropy the process starts with. *)

From Stdlib Require Import List ZArith String Ascii Bool Lia QArith.
Import ListNotations.
Local Open Scope Z_scope.
Local Open Scope string_scope.
Local Open Scope list_scope.

(** ** Exceptions and results *)

Inductive exn : Type :=
| IndexError          (* a list index out of range *)
| AttributeError      (* a field the object does not have *)
| TypeError           (* subscripting [None], an unexpected keyword argument *)
| RecursionError      (* the interpreter's recursion limit *)
| SystemExit (code : Z) (* [exit(code)] *)
| LibraryError (msg : string). (* raised inside PlantCV, pandas or the file system *)

Inductive res (A : Type) : Type :=
| Ret (a : A)
| Raise (e : exn).
Arguments Ret {A} a.
Arguments Raise {A} e.

Definition bind {A B : Type} (m : res A) (k : A -> res B) : res B :=
  match m with
  | Ret a => k a
  | Raise e => Raise e
  end.

Declare Scope res_scope.
Delimit Scope res_scope with res.
Notation "x <- m ;; k" := (bind m (fun x => k))
  (at level 61, m at next level, right associativity) : res_scope.
Notation "' p <- m ;; k" := (bind m (fun x => match x with p => k end))
  (at level 61, p pattern, m at next level, right associativity) : res_scope.
Local Open Scope res_scope.

(** ** Images and the values an image field can hold

    An image field holds a NumPy array, or the integer [0] that the source
    uses as a sentinel ([RawData(False, 0)] in the loader, [return 0] in
    [Consolidation.FindOutput]). *)

Definition ndarray : Type := list (list Z).

Inductive pyimg : Type :=
| Arr (a : ndarray)
| Int (z : Z).

Definition point : Type := (Z * Z)%type.
Definition contour : Type := list point.
Definition hierarchy : Type := list (list Z).

(** ** StageChannel.py *)

Module StageChannelIds.

(** The generator behind [random.getrandbits]: the bits the process will
    draw, in order.  [getrandbits k] reads the next [k] of them, least
    significant first. *)
Definition entropy : Type := nat -> bool.

Fixpoint bits_value (k : nat) (e : entropy) : Z :=
  match k with
  | O => 0
  | S k' => Z.b2z (e O) + 2 * bits_value k' (fun n => e (S n))
  end.

Definition getrandbits (k : nat) (e : entropy) : Z * entropy :=
  (bits_value k e, fun n => e (k + n)%nat).

(** The four [CHANNEL_ID] class attributes. *)
Record ChannelIds : Type := {
  SingleImageChannel_ID : Z;
  DoubleImageChannel_ID : Z;
  SnapshotChannel_ID : Z;
  SegmentationChannel_ID : Z
}.

(** Importing [StageChannel]: the class bodies run top to bottom, each
    drawing its [CHANNEL_ID]. *)
Definition import_StageChannel (e : entropy) : ChannelIds :=
  let '(single, e1) := getrandbits 256 e in
  let '(double, e2) := getrandbits 256 e1 in
  let '(snapshot, e3) := getrandbits 256 e2 in
  let '(segmentation, _) := getrandbits 256 e3 in
  {| SingleImageChannel_ID := single;
     DoubleImageChannel_ID := double;
     SnapshotChannel_ID := snapshot;
     SegmentationChannel_ID := segmentation |}.

Definition pairwise_distinct (c : ChannelIds) : Prop :=
  SingleImageChannel_ID c <> DoubleImageChannel_ID c /\
  SingleImageChannel_ID c <> SnapshotChannel_ID c /\
  SingleImageChannel_ID c <> SegmentationChannel_ID c /\
  DoubleImageChannel_ID c <> SnapshotChannel_ID c /\
  DoubleImageChannel_ID c <> SegmentationChannel_ID c /\
  SnapshotChannel_ID c <> SegmentationChannel_ID c.

(** The entropy whose four draws of 256 bits are [a], [b], [c], [d]. *)
Definition entropy_of (a b c d : Z) : entropy :=
  fun n => Z.testbit (nth (n / 256)%nat [a; b; c; d] 0)
                     (Z.of_nat (n mod 256)%nat).

End StageChannelIds.
Export StageChannelIds.

(** ** DataTypes.py *)

Record MetaData : Type := {
  timestamp : string;
  rgbFile : string
}.

Record RawData : Type := {
  valid : bool;
  rgb : pyimg
}.

Record DataUnit : Type := {
  raw : RawData;
  meta : MetaData
}.

(** The channel classes of [StageChannel.py], and what a history entry
    [(name, object)] can hold: [Pipeline.Format] starts the history with
    [("Disk", data)], a [DataUnit], and appends the [(name, channel)] pairs
    the stages return.

    A placeholder contour or mask [[]] of [RigidSegmentation] is the empty
    list. *)
Inductive StageChannel : Type :=
| SingleImageChannel (img : pyimg)
| DoubleImageChannel (imgPrimary imgSecondary : pyimg) (tag : string)
| SnapshotChannel (formatted : list (string * pyobj))
| SegmentationChannel (contours : list contour) (masks : list ndarray)
                      (rgb : pyimg) (tag : string)
with pyobj : Type :=
| ODataUnit (d : DataUnit)
| OChannel (c : StageChannel).

Definition StageEntry : Type := (string * pyobj)%type.

Record FormattedData : Type := {
  base : RawData;
  proc : list StageEntry
}.

(** ** StageConfig.py *)

Record WhiteBalanceConfig : Type := {
  wb_roi : Z * Z * Z * Z
}.

Record ViewportAdjustConfig : Type := {
  va_side : string;
  va_rotate : Z;
  va_shift : Z
}.

Record BinaryMaskConfig : Type := {
  bm_threshold : Z;
  bm_mx : Z;
  bm_obj : string;
  bm_fill : Z;
  bm_channel : string
}.

Record ConsolidationConfig : Type := {
  stageNames : list string;
  outChannelId : Z
}.

Record RigidSegmentationGridConfig : Type := {
  g_start : point;
  g_radius : Z;
  g_spacing : Z * Z;
  g_rows : Z;
  g_cols : Z;
  g_roiType : string
}.

Record RigidSegmentationCustomConfig : Type := {
  c_centers : list point;
  c_radius : Z
}.

(** The two concrete subclasses of [RigidSegmentationConfig]
    ([RIGID_TYPE] 0 and 1). *)
Inductive RigidSegmentationConfig : Type :=
| RigidGrid (g : RigidSegmentationGridConfig)
| RigidCustom (c : RigidSegmentationCustomConfig).

Definition GetRigidType (c : RigidSegmentationConfig) : Z :=
  match c with
  | RigidGrid _ => 0
  | RigidCustom _ => 1
  end.

Record DBSCANSegmentationConfig : Type := {
  minClusterSize : Z;
  epsilon : Q
}.

Record PlantAnalysisConfig : Type := {
  filetype : string;
  outfile : string
}.

(** ** The PlantCV boundary

    Every [pcv] call of [Stage.py], as a function that returns or raises. *)

(** The arguments of the two [pcv.roi.multi] calls. *)
Inductive roi_multi_args : Type :=
| MultiGrid (coord : point) (radius : Z) (spacing : Z * Z) (nrows ncols : Z)
| MultiPoints (coord : list point) (radius : Z).

Record PlantCV : Type := {
  white_balance : pyimg -> Z * Z * Z * Z -> res pyimg;
  rotate : pyimg -> Z -> res pyimg;
  shift_img : pyimg -> Z -> string -> res pyimg;
  rgb2gray_lab : pyimg -> string -> res pyimg;
  threshold_binary : pyimg -> Z -> Z -> string -> res pyimg;
  fill : pyimg -> Z -> res pyimg;
  find_objects : pyimg -> pyimg -> res (list contour * hierarchy);
  roi_multi : pyimg -> roi_multi_args -> res (list contour * list hierarchy);
  roi_objects : pyimg -> contour -> hierarchy -> list contour -> hierarchy ->
                res (list contour * hierarchy * ndarray * Z);
  object_composition : pyimg -> list contour -> hierarchy ->
                       res (contour * ndarray);
  spatial_clustering : pyimg -> Z -> Q -> res (pyimg * list ndarray);
  from_binary_image : pyimg -> ndarray -> res contour;
  analyze_object : pyimg -> contour -> ndarray -> Z -> res pyimg;
  (** [PlantAnalysis.Invoke] once the file name is built:
      [pcv.outputs.save_results] to that file and the pandas pass that
      stamps its rows.  Arguments: the configuration, the tag,
      [len(masks)].  [save_results] writes out the library's process-wide
      [pcv.outputs], which [analyze_object] fills and nothing clears: the
      record gives the library's answers in one state of it, and a
      theorem that speaks of the result of a call speaks of it in that
      state. *)
  save_and_stamp_results : PlantAnalysisConfig -> string -> nat -> res unit
}.

(** ** Stage.py *)

Inductive Stage : Type :=
| WhiteBalance (cfg : WhiteBalanceConfig)
| ViewportAdjust (cfg : ViewportAdjustConfig)
| BinaryMask (cfg : BinaryMaskConfig)
| Consolidation (cfg : ConsolidationConfig)
| RigidSegmentation (cfg : RigidSegmentationConfig)
| DBSCANSegmentation (cfg : DBSCANSegmentationConfig)
| PlantAnalysis (cfg : PlantAnalysisConfig).

Definition GetName (s : Stage) : string :=
  match s with
  | WhiteBalance _ => "WhiteBalance"
  | ViewportAdjust _ => "ViewportAdjust"
  | BinaryMask _ => "BinaryMask"
  | Consolidation _ => "Consolidation"
  | RigidSegmentation _ => "RigidSegmentation"
  | DBSCANSegmentation _ => "DBSCANSegmentation"
  | PlantAnalysis _ => "PlantAnalysis"
  end.

(** What [Invoke] returns: a [(name, channel)] pair, or [None] when the
    method body ends without a [return]. *)
Definition StageOutput : Type := option (string * StageChannel).

Section Stages.

(** The identifiers drawn when [StageChannel] was imported, and the
    PlantCV library. *)
Variable ids : ChannelIds.
Variable pcv : PlantCV.

Definition GetInterfaceIDs (s : Stage) : Z * Z :=
  match s with
  | WhiteBalance _ | ViewportAdjust _ | BinaryMask _ =>
      (SingleImageChannel_ID ids, SingleImageChannel_ID ids)
  | Consolidation cfg => (SnapshotChannel_ID ids, outChannelId cfg)
  | RigidSegmentation _ | DBSCANSegmentation _ =>
      (DoubleImageChannel_ID ids, SegmentationChannel_ID ids)
  | PlantAnalysis _ => (SegmentationChannel_ID ids, SnapshotChannel_ID ids)
  end.

(** *** WhiteBalance, ViewportAdjust, BinaryMask

    [cast] does nothing at run time: reading [.img] of a channel that is
    not a [SingleImageChannel] raises [AttributeError]. *)

Definition WhiteBalance_Invoke (cfg : WhiteBalanceConfig)
    (inData : StageChannel) : res StageOutput :=
  match inData with
  | SingleImageChannel img =>
      oImg <- white_balance pcv img (wb_roi cfg) ;;
      Ret (Some ("WhiteBalance", SingleImageChannel oImg))
  | _ => Raise AttributeError
  end.

Definition ViewportAdjust_Invoke (cfg : ViewportAdjustConfig)
    (inData : StageChannel) : res StageOutput :=
  match inData with
  | SingleImageChannel img =>
      turned <- rotate pcv img (va_rotate cfg) ;;
      oImg <- shift_img pcv turned (va_shift cfg) (va_side cfg) ;;
      Ret (Some ("ViewportAdjust", SingleImageChannel oImg))
  | _ => Raise AttributeError
  end.

Definition BinaryMask_Invoke (cfg : BinaryMaskConfig)
    (inData : StageChannel) : res StageOutput :=
  match inData with
  | SingleImageChannel img =>
      chan <- rgb2gray_lab pcv img (bm_channel cfg) ;;
      thre <- threshold_binary pcv chan (bm_threshold cfg) (bm_mx cfg)
                               (bm_obj cfg) ;;
      oImg <- fill pcv thre (bm_fill cfg) ;;
      Ret (Some ("BinaryMask", SingleImageChannel oImg))
  | _ => Raise AttributeError
  end.

(** *** Consolidation *)

(** [for entry in formatted]: the first entry whose name is [stageName]
    decides; [return 0] after the loop. *)
Fixpoint FindOutput (stageName : string) (formatted : list StageEntry)
    : res pyimg :=
  match formatted with
  | [] => Ret (Int 0)
  | entry :: rest =>
      if String.eqb (fst entry) stageName then
        if String.eqb stageName "Disk" then
          match snd entry with
          | ODataUnit d => Ret (rgb (raw d))            (* entry[1].raw.rgb *)
          | OChannel _ => Raise AttributeError
          end
        else
          match snd entry with
          | OChannel (SingleImageChannel img) => Ret img (* entry[1].img *)
          | _ => Raise AttributeError
          end
      else FindOutput stageName rest
  end.

(** [xs[i]] *)
Definition index {A : Type} (xs : list A) (i : nat) : res A :=
  match nth_error xs i with
  | Some x => Ret x
  | None => Raise IndexError
  end.

(** [csInput.formatted] *)
Definition get_formatted (c : StageChannel) : res (list StageEntry) :=
  match c with
  | SnapshotChannel formatted => Ret formatted
  | _ => Raise AttributeError
  end.

(** [o.meta.rgbFile] *)
Definition get_meta_rgbFile (o : pyobj) : res string :=
  match o with
  | ODataUnit d => Ret (rgbFile (meta d))
  | OChannel _ => Raise AttributeError
  end.

(** Arguments are evaluated left to right, each [FindOutput] call before
    the next argument.  When [outChannelId] is neither identifier the
    body ends and the method returns [None]. *)
Definition Consolidation_Invoke (cfg : ConsolidationConfig)
    (inData : StageChannel) : res StageOutput :=
  if Z.eqb (outChannelId cfg) (SingleImageChannel_ID ids) then
    name0 <- index (stageNames cfg) 0 ;;
    formatted <- get_formatted inData ;;
    img <- FindOutput name0 formatted ;;
    Ret (Some ("Consolidation", SingleImageChannel img))
  else if Z.eqb (outChannelId cfg) (DoubleImageChannel_ID ids) then
    name0 <- index (stageNames cfg) 0 ;;
    formatted <- get_formatted inData ;;
    imgPrimary <- FindOutput name0 formatted ;;
    name1 <- index (stageNames cfg) 1 ;;
    imgSecondary <- FindOutput name1 formatted ;;
    first <- index formatted 0 ;;
    tag <- get_meta_rgbFile (snd first) ;;
    Ret (Some ("Consolidation",
               DoubleImageChannel imgPrimary imgSecondary tag))
  else Ret None.

(** *** RigidSegmentation *)

Definition rigid_roi_args (rCfg : RigidSegmentationConfig)
    : roi_multi_args :=
  match rCfg with
  | RigidGrid gCfg =>
      MultiGrid (g_start gCfg) (g_radius gCfg) (g_spacing gCfg)
                (g_rows gCfg) (g_cols gCfg)
  | RigidCustom cCfg => MultiPoints (c_centers cCfg) (c_radius cCfg)
  end.

(** The body of [for i in range(0, len(rois))], from index [i] on:
    [todo] is [rois[i:]]. *)
Fixpoint rigid_loop (imgPrimary : pyimg) (objs : list contour)
    (objH : hierarchy) (roiH : list hierarchy) (todo : list contour)
    (i : nat) (oContours : list contour) (oMasks : list ndarray)
    : res (list contour * list ndarray) :=
  match todo with
  | [] => Ret (oContours, oMasks)
  | roi :: rest =>
      rh <- index roiH i ;;
      '(xCont, xHier, _, pArea) <-
         roi_objects pcv imgPrimary roi rh objs objH ;;
      if Z.leb pArea 0 then
        rigid_loop imgPrimary objs objH roiH rest (S i)
                   (oContours ++ [[]]) (oMasks ++ [[]])
      else
        '(pCont, pMask) <- object_composition pcv imgPrimary xCont xHier ;;
        rigid_loop imgPrimary objs objH roiH rest (S i)
                   (oContours ++ [pCont]) (oMasks ++ [pMask])
  end.

Definition RigidSegmentation_Invoke (rCfg : RigidSegmentationConfig)
    (inData : StageChannel) : res StageOutput :=
  match inData with
  | DoubleImageChannel imgPrimary imgSecondary tag =>
      '(objs, objH) <- find_objects pcv imgPrimary imgSecondary ;;
      '(rois, roiH) <- roi_multi pcv imgPrimary (rigid_roi_args rCfg) ;;
      '(oContours, oMasks) <-
         rigid_loop imgPrimary objs objH roiH rois 0 [] [] ;;
      Ret (Some ("RigidSegmentation",
                 SegmentationChannel oContours oMasks imgPrimary tag))
  | _ => Raise AttributeError
  end.

(** *** DBSCANSegmentation *)

(** The nested helper of [Invoke].  Its recursive call passes the keyword
    [topLevelMsk], which is not a parameter ([topLvlMask] is): the call
    raises [TypeError] before the callee's body runs. *)
Fixpoint extractSubMasks (cfg : DBSCANSegmentationConfig)
    (topLvlMask : list ndarray) (masks : list ndarray)
    : res (list ndarray) :=
  match topLvlMask with
  | [] => Ret masks
  | mask :: rest =>
      '(_, sbMsks) <- spatial_clustering pcv (Arr mask)
                        (minClusterSize cfg) (epsilon cfg) ;;
      if Nat.eqb (List.length sbMsks) 1 then
        extractSubMasks cfg rest (masks ++ [mask])
      else Raise TypeError
  end.

(** [for mask in cMsks] *)
Fixpoint dbscan_loop (imgPrimary : pyimg) (cMsks : list ndarray)
    (retMsks : list ndarray) (retCnts : list contour)
    : res (list ndarray * list contour) :=
  match cMsks with
  | [] => Ret (retMsks, retCnts)
  | mask :: rest =>
      cnt <- from_binary_image pcv imgPrimary mask ;;
      dbscan_loop imgPrimary rest (retMsks ++ [mask]) (retCnts ++ [cnt])
  end.

(** [extractSubMasks] is defined and never called. *)
Definition DBSCANSegmentation_Invoke (cfg : DBSCANSegmentationConfig)
    (inData : StageChannel) : res StageOutput :=
  match inData with
  | DoubleImageChannel imgPrimary imgSecondary tag =>
      '(_, cMsks) <- spatial_clustering pcv imgSecondary
                       (minClusterSize cfg) (epsilon cfg) ;;
      '(retMsks, retCnts) <- dbscan_loop imgPrimary cMsks [] [] ;;
      Ret (Some ("DBSCANSegmentation",
                 SegmentationChannel retCnts retMsks imgPrimary tag))
  | _ => Raise AttributeError
  end.

(** *** PlantAnalysis *)

(** The output file name, line 479:
    [(outfile + "_" + tag.split("image_")[1].split("/")[-1].split(".")[0]
      + ".csv").replace(" ", "_").replace("-", "_")];
    the rows are stamped with the same piece of the tag. *)

(** [s.split(sep)] for a separator of one character or more: the pieces
    between the occurrences of [sep], found from the left without
    overlap.  [skip] counts the characters of a found separator still to
    pass, [cur] is the piece read so far. *)
Fixpoint split_go (sep s : string) (skip : nat) (cur : string)
    : list string :=
  match s with
  | EmptyString => [cur]
  | String c rest =>
      match skip with
      | S k => split_go sep rest k cur
      | O =>
          if String.prefix sep s
          then cur :: split_go sep rest (String.length sep - 1) EmptyString
          else split_go sep rest 0 (String.append cur (String c EmptyString))
      end
  end.

Definition split (sep s : string) : list string :=
  split_go sep s 0 EmptyString.

(** [sep in s] *)
Fixpoint occurs (sep s : string) : bool :=
  String.prefix sep s ||
  match s with
  | EmptyString => false
  | String _ rest => occurs sep rest
  end.

(** [s.replace(old, new)] for one-character [old] and [new]. *)
Fixpoint replace_char (old new : Ascii.ascii) (s : string) : string :=
  match s with
  | EmptyString => EmptyString
  | String c rest =>
      String (if Ascii.eqb c old then new else c) (replace_char old new rest)
  end.

(** [xs[-1]] *)
Definition index_last {A : Type} (xs : list A) : res A :=
  match rev xs with
  | x :: _ => Ret x
  | [] => Raise IndexError
  end.

(** [tag.split("image_")[1].split("/")[-1].split(".")[0]] *)
Definition stem_of_tag (tag : string) : res string :=
  after <- index (split "image_" tag) 1 ;;
  file <- index_last (split "/" after) ;;
  index (split "." file) 0.

Definition outputFile (cfg : PlantAnalysisConfig) (tag : string)
    : res string :=
  stem <- stem_of_tag tag ;;
  Ret (replace_char "-"%char "_"%char
         (replace_char " "%char "_"%char
            (String.append (outfile cfg)
               (String.append "_" (String.append stem ".csv"))))).

(** [for i in range(0, len(paInput.masks))], from index [i] on: [todo] is
    [masks[i:]]. *)
Fixpoint analysis_loop (rgb : pyimg) (contours : list contour)
    (todo : list ndarray) (i : nat) : res unit :=
  match todo with
  | [] => Ret tt
  | mask :: rest =>
      cnt <- index contours i ;;
      _ <- analyze_object pcv rgb cnt mask (Z.of_nat i) ;;
      analysis_loop rgb contours rest (S i)
  end.

Definition PlantAnalysis_Invoke (cfg : PlantAnalysisConfig)
    (inData : StageChannel) : res StageOutput :=
  match inData with
  | SegmentationChannel contours masks rgb tag =>
      _ <- analysis_loop rgb contours masks 0 ;;
      _ <- outputFile cfg tag ;;
      _ <- save_and_stamp_results pcv cfg tag (List.length masks) ;;
      Ret (Some ("PlantAnalysis", SnapshotChannel []))
  | _ => Raise AttributeError
  end.

Definition Invoke (s : Stage) (inData : StageChannel) : res StageOutput :=
  match s with
  | WhiteBalance cfg => WhiteBalance_Invoke cfg inData
  | ViewportAdjust cfg => ViewportAdjust_Invoke cfg inData
  | BinaryMask cfg => BinaryMask_Invoke cfg inData
  | Consolidation cfg => Consolidation_Invoke cfg inData
  | RigidSegmentation cfg => RigidSegmentation_Invoke cfg inData
  | DBSCANSegmentation cfg => DBSCANSegmentation_Invoke cfg inData
  | PlantAnalysis cfg => PlantAnalysis_Invoke cfg inData
  end.

End Stages.

(** ** Options.py and Pipeline.py *)

Record Options : Type := {
  image : string;
  segname : string;
  debug : string;
  visualize : bool;
  writeimg : bool;
  result : string;
  outdir : string
}.

Record PipelineConfig : Type := {
  options : Options;
  stages : list Stage
}.

(** A constructed [Pipeline] object: its [cfg] attribute. *)
Record Pipeline : Type := {
  cfg : PipelineConfig
}.

(** What [Format] returns: the integer [0], or a [FormattedData]. *)
Inductive FormatResult : Type :=
| Zero
| Formatted (fd : FormattedData).

(** One call [stage.Invoke(inData)] made by [Format]. *)
Definition call : Type := (Stage * StageChannel)%type.

Section PipelineDefs.

Variable ids : ChannelIds.
Variable pcv : PlantCV.

(** [IsCompatible] after [curr = stages[0]]: [cIds] are the identifiers
    of [curr], [todo] is [stages[i:]]. *)
Fixpoint compat_loop (cIds : Z * Z) (todo : list Stage) : bool :=
  match todo with
  | [] => true
  | nxt :: rest =>
      let nIds := GetInterfaceIDs ids nxt in
      if negb (Z.eqb (fst nIds) (SnapshotChannel_ID ids))
         && negb (Z.eqb (snd cIds) (fst nIds))
      then false
      else compat_loop nIds rest
  end.

Definition IsCompatible (stages : list Stage) : res bool :=
  curr <- index stages 0 ;;
  Ret (compat_loop (GetInterfaceIDs ids curr) (tl stages)).

(** [Pipeline.__init__]: [exit(2)] on an incompatible configuration; an
    exception of [IsCompatible] propagates. *)
Definition Pipeline_init (cfg : PipelineConfig) : res Pipeline :=
  ok <- IsCompatible (stages cfg) ;;
  if negb ok then Raise (SystemExit 2) else Ret {| cfg := cfg |}.

(** The loop of [Format].  [calls] records, in order, every
    [stage.Invoke(inData)] the run has made; the source keeps no such
    record, it is here so that theorems can speak of which stages ran.
    [SnapshotChannel(intmed)] shares the list [intmed] with the loop; the
    list only grows after the stage has returned, and no stage keeps the
    channel, so the stage sees the history as it is here.
    When [Invoke] returns [None], [intmed.append(out)] succeeds and
    [out[1]] raises [TypeError]. *)
Fixpoint Format_loop (todo : list Stage) (inData : StageChannel)
    (intmed : list StageEntry) (calls : list call)
    : res (list StageEntry) * list call :=
  match todo with
  | [] => (Ret intmed, calls)
  | stage :: rest =>
      let inData :=
        if Z.eqb (fst (GetInterfaceIDs ids stage)) (SnapshotChannel_ID ids)
        then SnapshotChannel intmed else inData in
      let calls := calls ++ [(stage, inData)] in
      match Invoke ids pcv stage inData with
      | Raise e => (Raise e, calls)
      | Ret None => (Raise TypeError, calls)
      | Ret (Some out) =>
          Format_loop rest (snd out)
                      (intmed ++ [(fst out, OChannel (snd out))]) calls
      end
  end.

Definition Format (self : Pipeline) (data : DataUnit) (calls : list call)
    : res FormatResult * list call :=
  if negb (valid (raw data)) then (Ret Zero, calls)
  else
    match Format_loop (stages (cfg self))
                      (SingleImageChannel (rgb (raw data)))
                      [("Disk", ODataUnit data)] calls with
    | (Ret intmed, calls') =>
        (Ret (Formatted {| base := raw data; proc := intmed |}), calls')
    | (Raise e, calls') => (Raise e, calls')
    end.

(** [for unit in data: done.append(self.Format(unit))] *)
Fixpoint FormatSet_loop (self : Pipeline) (todo : list DataUnit)
    (done : list FormatResult) (calls : list call)
    : res (list FormatResult) * list call :=
  match todo with
  | [] => (Ret done, calls)
  | unit :: rest =>
      match Format self unit calls with
      | (Ret r, calls') => FormatSet_loop self rest (done ++ [r]) calls'
      | (Raise e, calls') => (Raise e, calls')
      end
  end.

Definition FormatSet (self : Pipeline) (data : list DataUnit)
    (calls : list call) : res (list FormatResult) * list call :=
  FormatSet_loop self data [] calls.

End PipelineDefs.

(** ** The properties the specification speaks of *)

Section SpecDefs.

Variable ids : ChannelIds.
Variable pcv : PlantCV.

(** A consecutive pair [(s, s')] is compatible: [inId == Snapshot.ID OR
    outId == inId]. *)
Definition pair_compatible (s s' : Stage) : Prop :=
  fst (GetInterfaceIDs ids s') = SnapshotChannel_ID ids \/
  snd (GetInterfaceIDs ids s) = fst (GetInterfaceIDs ids s').

Definition every_pair_compatible (stages : list Stage) : Prop :=
  forall i s s',
    nth_error stages i = Some s ->
    nth_error stages (S i) = Some s' ->
    pair_compatible s s'.

(** The first history entry whose name is [name]. *)
Definition first_entry (name : string) (history : list StageEntry)
    : option StageEntry :=
  find (fun entry => String.eqb (fst entry) name) history.

Definition count_invalid (data : list DataUnit) : nat :=
  List.length (filter (fun u => negb (valid (raw u))) data).

(** The centres of a grid of [nrows] rows and [ncols] columns that
    starts at [coord], row by row: column [j] of row [i] is at
    [(x + j * dx, y + i * dy)]. *)
Definition grid_centers (coord : point) (spacing : Z * Z)
    (nrows ncols : Z) : list point :=
  flat_map (fun i =>
    map (fun j => (fst coord + Z.of_nat j * fst spacing,
                   snd coord + Z.of_nat i * snd spacing))
        (seq 0 (Z.to_nat ncols)))
    (seq 0 (Z.to_nat nrows)).

(** The regions of interest a stage is configured with, in order, each a
    circle (centre, radius): read from the configuration record, not from
    what [Invoke] passes on.  A grid has its [rows] times [cols] circles
    row by row; a custom layout has one circle per listed centre. *)
Definition configured_rois (rCfg : RigidSegmentationConfig)
    : list (point * Z) :=
  match rCfg with
  | RigidGrid g =>
      map (fun c => (c, g_radius g))
          (grid_centers (g_start g) (g_spacing g) (g_rows g) (g_cols g))
  | RigidCustom c => map (fun x => (x, c_radius c)) (c_centers c)
  end.

(** The circles a call of [pcv.roi.multi] asks for, in the order the
    library makes them: read from the arguments of the call. *)
Definition circles_of_args (a : roi_multi_args) : list (point * Z) :=
  match a with
  | MultiGrid coord radius spacing nrows ncols =>
      map (fun c => (c, radius)) (grid_centers coord spacing nrows ncols)
  | MultiPoints coord radius => map (fun c => (c, radius)) coord
  end.

(** The contract of [pcv.roi.multi]: it returns, in order, the region and
    the hierarchy the library makes for each circle it is asked for.
    [region img circle] is that region and hierarchy
    ([pcv.roi.circle]). *)
Definition roi_multi_follows_circles
    (region : pyimg -> point * Z -> contour * hierarchy) : Prop :=
  forall img a rois roiH,
    roi_multi pcv img a = Ret (rois, roiH) ->
    rois = map (fun c => fst (region img c)) (circles_of_args a) /\
    roiH = map (fun c => snd (region img c)) (circles_of_args a).

(** What one region contributes: the placeholder for zero covered area,
    else the composed contour and mask. *)
Definition roi_result (imgPrimary : pyimg) (objs : list contour)
    (objH : hierarchy) (roi : contour) (rh : hierarchy)
    : res (contour * ndarray) :=
  '(xCont, xHier, _, pArea) <- roi_objects pcv imgPrimary roi rh objs objH ;;
  if Z.leb pArea 0 then Ret ([], [])
  else object_composition pcv imgPrimary xCont xHier.

(** The refinement of DBSCANSegmentation as the specification words it:
    re-cluster a mask; exactly one cluster accepts the mask, otherwise
    recurse into each sub-cluster and flatten the stable leaves.  [depth]
    bounds the recursion. *)
Fixpoint spec_refine (depth : nat) (cfg : DBSCANSegmentationConfig)
    (mask : ndarray) : res (list ndarray) :=
  match depth with
  | O => Raise RecursionError
  | S d =>
      '(_, sbMsks) <- spatial_clustering pcv (Arr mask)
                        (minClusterSize cfg) (epsilon cfg) ;;
      if Nat.eqb (List.length sbMsks) 1 then Ret [mask]
      else
        (fix each (ms : list ndarray) : res (list ndarray) :=
           match ms with
           | [] => Ret []
           | m :: rest =>
               leaves <- spec_refine d cfg m ;;
               more <- each rest ;;
               Ret (leaves ++ more)
           end) sbMsks
  end.

Fixpoint spec_refine_each (depth : nat) (cfg : DBSCANSegmentationConfig)
    (masks : list ndarray) : res (list ndarray) :=
  match masks with
  | [] => Ret []
  | m :: rest =>
      leaves <- spec_refine depth cfg m ;;
      more <- spec_refine_each depth cfg rest ;;
      Ret (leaves ++ more)
  end.

(** The mask list the specification has [DBSCANSegmentation.Invoke]
    return for a mask image. *)
Definition spec_dbscan_masks (depth : nat) (cfg : DBSCANSegmentationConfig)
    (imgSecondary : pyimg) : res (list ndarray) :=
  '(_, cMsks) <- spatial_clustering pcv imgSecondary
                   (minClusterSize cfg) (epsilon cfg) ;;
  spec_refine_each depth cfg cMsks.

(** The history entry [Format] appends for a stage output. *)
Definition entry_of (out : string * StageChannel) : StageEntry :=
  (fst out, OChannel (snd out)).

(** The output [out] of [RigidSegmentation.Invoke] on
    [DoubleImageChannel(p, s, tag)] is positional: it is a segmentation
    channel on [p] and [tag] whose contour list and mask list have one
    entry per configured region; entry [i] is what the region of
    configured circle [i] gives; a region whose covered area is not
    positive has the empty placeholder for both. *)
Definition one_entry_per_roi
    (region : pyimg -> point * Z -> contour * hierarchy)
    (rCfg : RigidSegmentationConfig)
    (p s : pyimg) (tag : string) (out : StageOutput) : Prop :=
  exists objs objH oContours oMasks,
    find_objects pcv p s = Ret (objs, objH) /\
    out = Some ("RigidSegmentation",
                SegmentationChannel oContours oMasks p tag) /\
    List.length oContours = List.length (configured_rois rCfg) /\
    List.length oMasks = List.length (configured_rois rCfg) /\
    forall i circle,
      nth_error (configured_rois rCfg) i = Some circle ->
      exists c m,
        roi_result p objs objH (fst (region p circle))
                   (snd (region p circle)) = Ret (c, m) /\
        nth_error oContours i = Some c /\
        nth_error oMasks i = Some m /\
        forall xCont xHier mk pArea,
          roi_objects pcv p (fst (region p circle)) (snd (region p circle))
                      objs objH
            = Ret (xCont, xHier, mk, pArea) ->
          pArea <= 0 -> c = [] /\ m = [].

(** The [FormattedData] [fd] is the history of a run of the pipeline on
    [data] that took the record of invocations from [calls] to
    [calls']: [base] is the unit's raw data; [proc] starts with
    [("Disk", data)] and goes on with one entry per configured stage,
    in order, carrying the stage's name and the channel its [Invoke]
    returned. *)
Definition history_of_run (self : Pipeline) (data : DataUnit)
    (calls calls' : list call) (fd : FormattedData) : Prop :=
  base fd = raw data /\
  nth_error (proc fd) 0 = Some ("Disk", ODataUnit data) /\
  exists (outs : list (string * StageChannel)) (new : list call),
    proc fd = ("Disk", ODataUnit data) :: map entry_of outs /\
    map fst outs = map GetName (stages (cfg self)) /\
    calls' = calls ++ new /\
    map fst new = stages (cfg self) /\
    Forall2 (fun c o => Invoke ids pcv (fst c) (snd c) = Ret (Some o))
            new outs.

(** An entry a stage appended: its name is not "Disk", and under the
    name "BinaryMask" it holds a single-image channel. *)
Definition stage_entry (entry : StageEntry) : Prop :=
  fst entry <> "Disk" /\
  (fst entry = "BinaryMask" ->
   exists img, snd entry = OChannel (SingleImageChannel img)).

(** A history of a run on [data]: [("Disk", data)], then entries that
    stages appended. *)
Definition run_history (data : DataUnit) (history : list StageEntry)
    : Prop :=
  exists rest,
    history = ("Disk", ODataUnit data) :: rest /\ Forall stage_entry rest.

(** [out] holds, in order, what the calls [Format(unit)] returned, made
    one after the other on the units of [data]; the record of
    invocations goes from [calls] to [calls']. *)
Fixpoint results_of_Format (self : Pipeline) (data : list DataUnit)
    (out : list FormatResult) (calls calls' : list call) : Prop :=
  match data, out with
  | [], [] => calls' = calls
  | u :: data', r :: out' =>
      exists c1,
        Format ids pcv self u calls = (Ret r, c1) /\
        results_of_Format self data' out' c1 calls'
  | _, _ => False
  end.

(** What [Format] returns for a unit: the integer [0] for an invalid
    one, a [FormattedData] on the unit's raw data for a valid one. *)
Definition result_of_unit (u : DataUnit) (r : FormatResult) : Prop :=
  if valid (raw u) then exists fd, r = Formatted fd /\ base fd = raw u
  else r = Zero.

(** The masks of a stage output. *)
Definition output_masks (out : StageOutput) : option (list ndarray) :=
  match out with
  | Some (_, SegmentationChannel _ masks _ _) => Some masks
  | _ => None
  end.

End SpecDefs.

(** ** A small instance to run the code on *)

Module Sample.

(** Entropy whose four draws are 1, 2, 3 and 4. *)
Definition entropy1234 : entropy :=
  fun n => existsb (Nat.eqb n) [0; 257; 512; 513; 770]%nat.

Definition ids : ChannelIds := import_StageChannel entropy1234.

Definition all_false : entropy := fun _ => false.
Definition all_true : entropy := fun _ => true.

(** Each row [[x; y]] of a mask image is one object at [(x, y)]. *)
Definition row_object (row : list Z) : contour :=
  match row with
  | x :: y :: _ => [(x, y)]
  | _ => []
  end.

Definition point_eqb (p q : point) : bool :=
  Z.eqb (fst p) (fst q) && Z.eqb (snd p) (snd q).

Definition touches (roi obj : contour) : bool :=
  existsb (fun p => existsb (point_eqb p) roi) obj.

(** Grid centres, row by row. *)
Definition grid_centers (coord : point) (spacing : Z * Z)
    (nrows ncols : Z) : list point :=
  flat_map (fun i =>
    map (fun j => (fst coord + Z.of_nat j * fst spacing,
                   snd coord + Z.of_nat i * snd spacing))
        (seq 0 (Z.to_nat ncols)))
    (seq 0 (Z.to_nat nrows)).

(** A clustering that drops the last row of a mask of three rows or
    more, splits a mask of two rows into its rows, and keeps any other
    mask whole. *)
Definition clusters (m : ndarray) : list ndarray :=
  match m with
  | r1 :: r2 :: _ :: _ => [removelast m]
  | [r1; r2] => [[r1]; [r2]]
  | _ => [m]
  end.

Definition need_array {A : Type} (img : pyimg) (k : ndarray -> res A)
    : res A :=
  match img with
  | Arr a => k a
  | Int _ => Raise (LibraryError "not an image")
  end.

Definition pcv : PlantCV := {|
  white_balance := fun img _ => need_array img (fun _ => Ret img);
  rotate := fun img _ => need_array img (fun _ => Ret img);
  shift_img := fun img _ _ => need_array img (fun _ => Ret img);
  rgb2gray_lab := fun img _ => need_array img (fun _ => Ret img);
  threshold_binary := fun img _ _ _ => need_array img (fun _ => Ret img);
  fill := fun img _ => need_array img (fun _ => Ret img);
  find_objects := fun _ mask =>
    need_array mask (fun a => Ret (map row_object a, []));
  roi_multi := fun _ a =>
    match a with
    | MultiGrid coord _ spacing nrows ncols =>
        let cs := grid_centers coord spacing nrows ncols in
        Ret (map (fun c => [c]) cs, map (fun _ => []) cs)
    | MultiPoints coord _ =>
        Ret (map (fun c => [c]) coord, map (fun _ => []) coord)
    end;
  roi_objects := fun _ roi _ objs objH =>
    let kept := filter (touches roi) objs in
    Ret (kept, objH, [], Z.of_nat (List.length kept));
  object_composition := fun _ xCont _ => Ret (List.concat xCont, [[1]]);
  spatial_clustering := fun img _ _ =>
    need_array img (fun a => Ret (img, clusters a));
  from_binary_image := fun _ mask => Ret (List.concat (map row_object mask));
  analyze_object := fun img _ _ _ => Ret img;
  save_and_stamp_results := fun _ _ _ => Ret tt
|}.

(** Stages and pipelines after [Main.py]. *)
Definition wb : Stage := WhiteBalance {| wb_roi := (220, 87, 60, 10) |}.

Definition bm : Stage :=
  BinaryMask {| bm_threshold := 135; bm_mx := 255; bm_obj := "light";
                bm_fill := 200; bm_channel := "b" |}.

Definition cs_C_cfg : ConsolidationConfig :=
  {| stageNames := ["Disk"; "BinaryMask"];
     outChannelId := DoubleImageChannel_ID ids |}.

Definition cs_C : Stage := Consolidation cs_C_cfg.

(** A consolidation whose output identifier is no channel's. *)
Definition cs_other_cfg : ConsolidationConfig :=
  {| stageNames := ["Disk"; "BinaryMask"]; outChannelId := 0 |}.

Definition grid2x2 : RigidSegmentationConfig :=
  RigidGrid {| g_start := (0, 0); g_radius := 3; g_spacing := (10, 10);
               g_rows := 2; g_cols := 2; g_roiType := "partial" |}.

Definition rSeg : Stage := RigidSegmentation grid2x2.

Definition segDB_cfg : DBSCANSegmentationConfig :=
  {| minClusterSize := 5; epsilon := 59 # 1000 |}.

Definition segDB : Stage := DBSCANSegmentation segDB_cfg.

Definition analysis : Stage :=
  PlantAnalysis {| filetype := "csv"; outfile := "data" |}.

Definition opts : Options :=
  {| image := "image_2023-02-13 16_52_27.jpg"; segname := "image_pid_";
     debug := "plot"; visualize := true; writeimg := true;
     result := "multi_plant_tutorial_results_ffp.csv"; outdir := "./" |}.

Definition r_pipe : Pipeline :=
  {| cfg := {| options := opts; stages := [bm; cs_C; rSeg; analysis] |} |}.

(** Objects at three of the four centres of [grid2x2]. *)
Definition three_plants : pyimg := Arr [[0; 0]; [10; 0]; [0; 10]].

Definition day : DataUnit :=
  {| raw := {| valid := true; rgb := three_plants |};
     meta := {| timestamp := "";
                rgbFile := "image_2023-02-13 16_52_27.jpg" |} |}.

(** What the loader builds for a night image: [RawData(False, 0)]. *)
Definition night : DataUnit :=
  {| raw := {| valid := false; rgb := Int 0 |};
     meta := {| timestamp := "";
                rgbFile := "image_2023-02-13 23_52_27.jpg" |} |}.

(** A mask image of three rows: [clusters] gives one mask of two rows,
    which [clusters] splits into two stable masks. *)
Definition splitting_mask : pyimg := Arr [[1; 1]; [5; 5]; [9; 9]].

End Sample.

(** ** Channel variants

    Which class a channel object is, which class a stage reads its input
    as, and the identifier of a class. *)

Inductive variant : Type :=
| VSingleImage
| VDoubleImage
| VSnapshot
| VSegmentation.

Definition variant_of (c : StageChannel) : variant :=
  match c with
  | SingleImageChannel _ => VSingleImage
  | DoubleImageChannel _ _ _ => VDoubleImage
  | SnapshotChannel _ => VSnapshot
  | SegmentationChannel _ _ _ _ => VSegmentation
  end.

(** The class whose fields the body of [Invoke] reads from [inData]. *)
Definition input_variant (s : Stage) : variant :=
  match s with
  | WhiteBalance _ | ViewportAdjust _ | BinaryMask _ => VSingleImage
  | Consolidation _ => VSnapshot
  | RigidSegmentation _ | DBSCANSegmentation _ => VDoubleImage
  | PlantAnalysis _ => VSegmentation
  end.

Definition id_of (ids : ChannelIds) (v : variant) : Z :=
  match v with
  | VSingleImage => SingleImageChannel_ID ids
  | VDoubleImage => DoubleImageChannel_ID ids
  | VSnapshot => SnapshotChannel_ID ids
  | VSegmentation => SegmentationChannel_ID ids
  end.

Definition is_Consolidation (s : Stage) : bool :=
  match s with
  | Consolidation _ => true
  | _ => false
  end.

(** The tag of a channel that has one. *)
Definition tag_of (c : StageChannel) : option string :=
  match c with
  | DoubleImageChannel _ _ tag => Some tag
  | SegmentationChannel _ _ _ tag => Some tag
  | _ => None
  end.


(** ** Loader.py *)

(** What [np.average] returns: a number, or [nan] for an empty array. *)
Inductive npfloat : Type :=
| Finite (q : Q)
| NaN.

(** [x < bound]; a comparison with [nan] is false. *)
Definition float_lt (x : npfloat) (bound : Q) : bool :=
  match x with
  | Finite q => negb (Qle_bool bound q)
  | NaN => false
  end.

(** What the loader calls: [glob.glob], the image of [pcv.readimage], and
    [np.average]. *)
Record LoaderEnv : Type := {
  glob : string -> list string;
  readimage : string -> res pyimg;
  np_average : pyimg -> res npfloat
}.

Section Loader.

Variable env : LoaderEnv.

Definition GenRaw (meta : MetaData) : res RawData :=
  img <- readimage env (rgbFile meta) ;;
  avg <- np_average env img ;;
  if float_lt avg (50 # 1) then Ret {| valid := false; rgb := Int 0 |}
  else Ret {| valid := true; rgb := img |}.

Definition GetTimestamp (filename : string) : string := EmptyString.

(** [for name in jpgs] *)
Fixpoint LoadDir_loop (jpgs : list string) (data : list DataUnit)
    : res (list DataUnit) :=
  match jpgs with
  | [] => Ret data
  | name :: rest =>
      let meta := {| timestamp := GetTimestamp name; rgbFile := name |} in
      raw <- GenRaw meta ;;
      if valid raw
      then LoadDir_loop rest (data ++ [{| raw := raw; meta := meta |}])
      else LoadDir_loop rest data
  end.

Definition LoadDir (path : string) : res (list DataUnit) :=
  LoadDir_loop (glob env (String.append path "*.jpg")) [].

(** The file [name] loads, and as a valid image. *)
Definition day_image (name : string) : bool :=
  match GenRaw {| timestamp := GetTimestamp name; rgbFile := name |} with
  | Ret raw => valid raw
  | Raise _ => false
  end.

End Loader.

(** ** Main.py *)

Module Main.

Section Wiring.

Variable ids : ChannelIds.

Definition wb : Stage := WhiteBalance {| wb_roi := (220, 87, 60, 10) |}.

Definition va : Stage :=
  ViewportAdjust {| va_side := "top"; va_rotate := 1; va_shift := 70 |}.

Definition bm : Stage :=
  BinaryMask {| bm_threshold := 135; bm_mx := 255; bm_obj := "light";
                bm_fill := 200; bm_channel := "b" |}.

Definition analysis : Stage :=
  PlantAnalysis {| filetype := "csv";
                   outfile := "/Users/alex/Desktop/CSV_DATA/DBSCAN/3a/data" |}.

Definition cs_A : Stage :=
  Consolidation {| stageNames := [GetName va; GetName bm];
                   outChannelId := DoubleImageChannel_ID ids |}.

Definition cs_B : Stage :=
  Consolidation {| stageNames := [GetName wb; GetName bm];
                   outChannelId := DoubleImageChannel_ID ids |}.

Definition cs_C : Stage :=
  Consolidation {| stageNames := ["Disk"; GetName bm];
                   outChannelId := DoubleImageChannel_ID ids |}.

Definition rSeg_2 : Stage :=
  RigidSegmentation
    (RigidGrid {| g_start := (70, 150); g_radius := 30;
                  g_spacing := (90, 90); g_rows := 4; g_cols := 7;
                  g_roiType := "partial" |}).

Definition rSeg_3a : Stage :=
  RigidSegmentation
    (RigidCustom
       {| c_centers := [(139, 205); (220, 200); (306, 194); (407, 190);
                        (496, 182); (350, 254); (140, 324); (226, 317);
                        (310, 311); (415, 307); (503, 306)];
          c_radius := 15 |}).

Definition rSeg_3b : Stage :=
  RigidSegmentation
    (RigidCustom
       {| c_centers := [(107, 200); (189, 196); (279, 192); (383, 186);
                        (463, 175); (322, 246); (119, 319); (205, 309);
                        (288, 313); (392, 307); (481, 297)];
          c_radius := 15 |}).

Definition segDB : Stage :=
  DBSCANSegmentation {| minClusterSize := 5; epsilon := 59 # 1000 |}.

(** [options = Options()]: the defaults of [Options.py]. *)
Definition options' : Options :=
  {| image :=
       "/Users/alex/Desktop/pipeline/images/image_2023-02-13 16_52_27.jpg";
     segname := "image_pid_"; debug := "plot"; visualize := true;
     writeimg := true; result := "multi_plant_tutorial_results_ffp.csv";
     outdir := "./" |}.

Definition rCfg_2 : PipelineConfig :=
  {| options := options'; stages := [wb; va; bm; cs_A; rSeg_2; analysis] |}.

Definition rCfg_3a : PipelineConfig :=
  {| options := options'; stages := [wb; bm; cs_B; rSeg_3a; analysis] |}.

Definition rCfg_3b : PipelineConfig :=
  {| options := options'; stages := [wb; bm; cs_B; rSeg_3b; analysis] |}.

Definition dbscanCfg : PipelineConfig :=
  {| options := options'; stages := [bm; cs_C; segDB; analysis] |}.

End Wiring.

End Main.

(** ** A small directory to load *)

Module SampleDir.

(** The mean of the pixels, [nan] for none. *)
Definition mean (a : ndarray) : npfloat :=
  let pixels := List.concat a in
  match pixels with
  | [] => NaN
  | _ => Finite (fold_right Z.add 0 pixels
                   # Pos.of_nat (List.length pixels))
  end.

Definition bright : pyimg := Arr [[200; 0]; [0; 200]].
Definition dark : pyimg := Arr [[0; 0]; [3; 1]].

(** Two files, the first bright, the second dark; any other file is
    missing. *)
Definition env : LoaderEnv := {|
  glob := fun _ => ["/data/image_2023-02-13 16_52_27.jpg";
                    "/data/image_2023-02-13 23_52_27.jpg"];
  readimage := fun name =>
    if String.eqb name "/data/image_2023-02-13 16_52_27.jpg" then Ret bright
    else if String.eqb name "/data/image_2023-02-13 23_52_27.jpg"
         then Ret dark
         else Raise (LibraryError "no such file");
  np_average := fun img =>
    match img with
    | Arr a => Ret (mean a)
    | Int z => Ret (Finite (z # 1))
    end
|}.

(** A pipeline whose second stage is given the wrong class of channel. *)
Definition ill_typed : Pipeline :=
  {| cfg := {| options := Sample.opts;
               stages := [Sample.bm; Sample.rSeg] |} |}.

End SampleDir.

(** * Theorems *)

Ltac inv H := inversion H; subst; clear H.

(** ** Channel identifiers *)

Lemma bits_value_range (k : nat) (e : entropy) :
  0 <= bits_value k e < 2 ^ Z.of_nat k.
Proof.
  revert e; induction k as [| k IH]; intro e.
  - cbn. lia.
  - rewrite Nat2Z.inj_succ, Z.pow_succ_r by lia.
    cbn [bits_value].
    specialize (IH (fun n => e (S n))).
    destruct (e O); cbn [Z.b2z]; lia.
Qed.

Lemma bits_value_ext (k : nat) (e e' : entropy) :
  (forall n, (n < k)%nat -> e n = e' n) ->
  bits_value k e = bits_value k e'.
Proof.
  revert e e'; induction k as [| k IH]; intros e e' Hext.
  - reflexivity.
  - cbn [bits_value].
    rewrite (Hext O) by lia.
    rewrite (IH (fun n => e (S n)) (fun n => e' (S n))).
    + reflexivity.
    + intros n Hn. apply Hext. lia.
Qed.

(** Reading [k] bits of the binary expansion of [a] gives [a mod 2^k]. *)
Lemma bits_value_testbit (k : nat) (a : Z) :
  bits_value k (fun n => Z.testbit a (Z.of_nat n)) = a mod 2 ^ Z.of_nat k.
Proof.
  revert a; induction k as [| k IH]; intro a.
  - cbn. now rewrite Z.mod_1_r.
  - cbn [bits_value].
    rewrite (bits_value_ext k _ (fun n => Z.testbit (Z.div2 a) (Z.of_nat n))).
    + rewrite IH, Nat2Z.inj_succ, Z.pow_succ_r by lia.
      change (Z.of_nat 0) with 0.
      rewrite Z.bit0_odd, Z.div2_div.
      rewrite Z.rem_mul_r by lia.
      rewrite Zmod_odd.
      destruct (Z.odd a); cbn [Z.b2z]; lia.
    + intros n _. rewrite Z.div2_spec, Z.shiftr_spec by lia.
      f_equal. lia.
Qed.

Lemma entropy_of_block (a b c d : Z) (i : nat) :
  bits_value 256 (fun n => entropy_of a b c d (i * 256 + n)%nat) =
  nth i [a; b; c; d] 0 mod 2 ^ 256.
Proof.
  rewrite (bits_value_ext 256 _
             (fun n => Z.testbit (nth i [a; b; c; d] 0) (Z.of_nat n))).
  - apply bits_value_testbit.
  - intros n Hn. unfold entropy_of.
    rewrite Nat.div_add_l by discriminate.
    rewrite (Nat.div_small n 256) by exact Hn.
    rewrite Nat.add_0_r.
    rewrite Nat.add_comm, Nat.Div0.mod_add.
    now rewrite (Nat.mod_small n 256) by exact Hn.
Qed.

(** C9, as the code has it: every identifier is a 256-bit number read from
    the entropy of the run when [StageChannel] is imported, so it is fixed
    within a run; and whatever four 256-bit values [a], [b], [c], [d] are
    can be the four identifiers of a run, so neither distinctness nor
    agreement between runs is guaranteed. *)
Theorem channel_ids_are_draws_of_the_run (e : entropy) (a b c d : Z) :
  (0 <= SingleImageChannel_ID (import_StageChannel e) < 2 ^ 256 /\
   0 <= DoubleImageChannel_ID (import_StageChannel e) < 2 ^ 256 /\
   0 <= SnapshotChannel_ID (import_StageChannel e) < 2 ^ 256 /\
   0 <= SegmentationChannel_ID (import_StageChannel e) < 2 ^ 256) /\
  import_StageChannel (entropy_of a b c d) =
    {| SingleImageChannel_ID := a mod 2 ^ 256;
       DoubleImageChannel_ID := b mod 2 ^ 256;
       SnapshotChannel_ID := c mod 2 ^ 256;
       SegmentationChannel_ID := d mod 2 ^ 256 |}.
Proof.
  unfold import_StageChannel, getrandbits.
  cbv beta iota zeta.
  split.
  - cbv beta iota delta [SingleImageChannel_ID DoubleImageChannel_ID
                         SnapshotChannel_ID SegmentationChannel_ID].
    repeat split; apply (bits_value_range 256).
  - f_equal.
    + exact (entropy_of_block a b c d 0).
    + exact (entropy_of_block a b c d 1).
    + exact (entropy_of_block a b c d 2).
    + exact (entropy_of_block a b c d 3).
Qed.

(** C9 as stated fails: two runs draw different identifiers, and a run
    can draw the same identifier for two variants. *)
Lemma channel_ids_differ_between_runs_and_may_collide :
  import_StageChannel Sample.entropy1234 <>
    import_StageChannel Sample.all_false /\
  SingleImageChannel_ID (import_StageChannel Sample.all_false) =
    DoubleImageChannel_ID (import_StageChannel Sample.all_false) /\
  ~ pairwise_distinct (import_StageChannel Sample.all_false).
Proof.
  split; [ | split ].
  - intro H. apply (f_equal SingleImageChannel_ID) in H.
    vm_compute in H. discriminate H.
  - vm_compute. reflexivity.
  - intros [H _]. apply H. vm_compute. reflexivity.
Qed.

(** ** Compatibility *)

Section Compatibility.

Variable ids : ChannelIds.

Lemma every_pair_compatible_cons (s nxt : Stage) (rest : list Stage) :
  every_pair_compatible ids (s :: nxt :: rest) <->
  pair_compatible ids s nxt /\ every_pair_compatible ids (nxt :: rest).
Proof.
  unfold every_pair_compatible. split.
  - intro H. split.
    + apply (H O); reflexivity.
    + intros i a b Ha Hb. apply (H (S i)); assumption.
  - intros [H0 H] [| i] a b Ha Hb.
    + cbn in Ha, Hb. inv Ha. inv Hb. exact H0.
    + apply (H i); assumption.
Qed.

Lemma every_pair_compatible_single (s : Stage) :
  every_pair_compatible ids [s].
Proof.
  intros [| i] a b Ha Hb; cbn in Hb.
  - discriminate.
  - destruct i; discriminate.
Qed.

(** One step of the loop refuses exactly the incompatible pairs. *)
Lemma pair_test_spec (s nxt : Stage) :
  negb (Z.eqb (fst (GetInterfaceIDs ids nxt)) (SnapshotChannel_ID ids))
  && negb (Z.eqb (snd (GetInterfaceIDs ids s))
                 (fst (GetInterfaceIDs ids nxt))) = false <->
  pair_compatible ids s nxt.
Proof.
  unfold pair_compatible.
  rewrite andb_false_iff, !negb_false_iff, !Z.eqb_eq. reflexivity.
Qed.

Lemma compat_loop_spec (s : Stage) (rest : list Stage) :
  compat_loop ids (GetInterfaceIDs ids s) rest = true <->
  every_pair_compatible ids (s :: rest).
Proof.
  revert s; induction rest as [| nxt rest IH]; intro s.
  - cbn. split; [ intros _; apply every_pair_compatible_single | reflexivity ].
  - cbn [compat_loop]. rewrite every_pair_compatible_cons.
    rewrite <- pair_test_spec, <- IH.
    destruct (negb _ && negb _); intuition congruence.
Qed.

(** On a non-empty sequence [IsCompatible] returns, and returns [True]
    exactly when every consecutive pair is compatible. *)
Lemma IsCompatible_nonempty (s : Stage) (rest : list Stage) :
  exists b, IsCompatible ids (s :: rest) = Ret b /\
            (b = true <-> every_pair_compatible ids (s :: rest)).
Proof.
  eexists. split; [ reflexivity | ]. apply compat_loop_spec.
Qed.

Lemma IsCompatible_single (s : Stage) : IsCompatible ids [s] = Ret true.
Proof. reflexivity. Qed.

(** C1: on the empty sequence [stages[0]] raises [IndexError]; the check
    returns neither [False] nor [True], and the constructor fails with
    that exception instead of its [exit(2)]. *)
Theorem IsCompatible_empty_raises (o : Options) :
  IsCompatible ids [] = Raise IndexError /\
  Pipeline_init ids {| options := o; stages := [] |} = Raise IndexError.
Proof. split; reflexivity. Qed.

End Compatibility.

(** ** Consolidation *)

Section ConsolidationFacts.

Variable ids : ChannelIds.

Lemma FindOutput_absent (name : string) (history : list StageEntry) :
  Forall (fun entry => fst entry <> name) history ->
  FindOutput name history = Ret (Int 0).
Proof.
  induction 1 as [| entry rest Hne _ IH].
  - reflexivity.
  - cbn [FindOutput].
    apply String.eqb_neq in Hne. rewrite Hne. exact IH.
Qed.

Lemma FindOutput_Disk (history : list StageEntry) (n : string)
    (d : DataUnit) :
  first_entry "Disk" history = Some (n, ODataUnit d) ->
  FindOutput "Disk" history = Ret (rgb (raw d)).
Proof.
  unfold first_entry.
  induction history as [| entry rest IH]; cbn [find FindOutput]; intro H.
  - discriminate.
  - destruct (String.eqb (fst entry) "Disk").
    + inv H. reflexivity.
    + auto.
Qed.

Lemma FindOutput_stage (name : string) (history : list StageEntry)
    (n : string) (img : pyimg) :
  name <> "Disk" ->
  first_entry name history = Some (n, OChannel (SingleImageChannel img)) ->
  FindOutput name history = Ret img.
Proof.
  intro Hname. apply String.eqb_neq in Hname.
  unfold first_entry.
  induction history as [| entry rest IH]; cbn [find FindOutput]; intro H.
  - discriminate.
  - destruct (String.eqb (fst entry) name).
    + inv H. rewrite Hname. reflexivity.
    + auto.
Qed.

(** C4, as the code has it: a name no entry carries makes [FindOutput]
    return the integer [0] without raising, and [Invoke] with a
    single-image output stores that [0] as the image of its channel. *)
Theorem FindOutput_absent_returns_zero (name : string)
    (others : list string) (history : list StageEntry) :
  Forall (fun entry => fst entry <> name) history ->
  FindOutput name history = Ret (Int 0) /\
  Consolidation_Invoke ids
    {| stageNames := name :: others;
       outChannelId := SingleImageChannel_ID ids |}
    (SnapshotChannel history)
  = Ret (Some ("Consolidation", SingleImageChannel (Int 0))).
Proof.
  intro Habsent.
  pose proof (FindOutput_absent name history Habsent) as Hfind.
  split; [ exact Hfind | ].
  unfold Consolidation_Invoke. cbn [outChannelId stageNames].
  rewrite Z.eqb_refl. cbn. rewrite Hfind. reflexivity.
Qed.

(** C8: with [stageNames = ["Disk", "BinaryMask"]] and the double-image
    output, the channel returned has the raw image of the first "Disk"
    entry as primary, the image of the first "BinaryMask" entry as
    secondary, and the source path of the first history entry as tag. *)
Theorem Consolidation_Disk_BinaryMask (cfg : ConsolidationConfig)
    (history : list StageEntry) (nd nb n0 : string) (d d0 : DataUnit)
    (m : pyimg) :
  stageNames cfg = ["Disk"; "BinaryMask"] ->
  outChannelId cfg = DoubleImageChannel_ID ids ->
  DoubleImageChannel_ID ids <> SingleImageChannel_ID ids ->
  first_entry "Disk" history = Some (nd, ODataUnit d) ->
  first_entry "BinaryMask" history
    = Some (nb, OChannel (SingleImageChannel m)) ->
  nth_error history 0 = Some (n0, ODataUnit d0) ->
  Consolidation_Invoke ids cfg (SnapshotChannel history)
  = Ret (Some ("Consolidation",
               DoubleImageChannel (rgb (raw d)) m (rgbFile (meta d0)))).
Proof.
  intros Hnames Hout Hdistinct Hdisk Hmask Hfirst.
  unfold Consolidation_Invoke. rewrite Hnames, Hout.
  apply Z.eqb_neq in Hdistinct. rewrite Hdistinct, Z.eqb_refl.
  cbn [index nth_error bind get_formatted].
  rewrite (FindOutput_Disk history nd d Hdisk). cbn [bind].
  rewrite (FindOutput_stage "BinaryMask" history nb m
             ltac:(discriminate) Hmask).
  cbn [bind]. unfold index. rewrite Hfirst. reflexivity.
Qed.

(** A pair comes back only through one of the two branches. *)
Lemma Consolidation_returns_only_for_image_outputs
    (cfg : ConsolidationConfig) (inData : StageChannel)
    (out : string * StageChannel) :
  Consolidation_Invoke ids cfg inData = Ret (Some out) ->
  outChannelId cfg = SingleImageChannel_ID ids \/
  outChannelId cfg = DoubleImageChannel_ID ids.
Proof.
  unfold Consolidation_Invoke.
  destruct (Z.eqb_spec (outChannelId cfg) (SingleImageChannel_ID ids));
    [ now left | ].
  destruct (Z.eqb_spec (outChannelId cfg) (DoubleImageChannel_ID ids));
    [ now right | discriminate ].
Qed.

End ConsolidationFacts.

(** ** Format and FormatSet *)

(** Case analysis along the binds and matches of a run [H] that
    returned. *)
Ltac crunch H :=
  repeat match type of H with
         | context [bind ?m _] =>
             destruct m eqn:?; cbn [bind] in H; try discriminate H
         | context [match ?x with _ => _ end] =>
             destruct x eqn:?; try discriminate H
         end.

Section FormatFacts.

Variable ids : ChannelIds.
Variable pcv : PlantCV.

(** Every stage returns its own name with its channel. *)
Lemma Invoke_name (s : Stage) (inData : StageChannel)
    (out : string * StageChannel) :
  Invoke ids pcv s inData = Ret (Some out) -> fst out = GetName s.
Proof.
  destruct s; cbn [Invoke GetName];
    unfold WhiteBalance_Invoke, ViewportAdjust_Invoke, BinaryMask_Invoke,
           Consolidation_Invoke, RigidSegmentation_Invoke,
           DBSCANSegmentation_Invoke, PlantAnalysis_Invoke;
    intro H; crunch H; inv H; reflexivity.
Qed.

Lemma Format_loop_returns (todo : list Stage) :
  forall (inData : StageChannel) (intmed : list StageEntry)
         (calls : list call) (h : list StageEntry) (calls' : list call),
    Format_loop ids pcv todo inData intmed calls = (Ret h, calls') ->
    exists (outs : list (string * StageChannel)) (new : list call),
      h = intmed ++ map entry_of outs /\
      map fst outs = map GetName todo /\
      calls' = calls ++ new /\
      map fst new = todo /\
      Forall2 (fun c o => Invoke ids pcv (fst c) (snd c) = Ret (Some o))
              new outs.
Proof.
  induction todo as [| stage rest IH]; intros inData intmed calls h calls' H.
  - cbn in H. inv H. exists [], []. cbn. rewrite !app_nil_r.
    repeat split; constructor.
  - cbn [Format_loop] in H.
    set (inData' := if Z.eqb (fst (GetInterfaceIDs ids stage))
                             (SnapshotChannel_ID ids)
                    then SnapshotChannel intmed else inData) in *.
    destruct (Invoke ids pcv stage inData') as [[out |] | e] eqn:Hinv;
      try discriminate H.
    apply IH in H.
    destruct H as (outs & new & Hh & Hnames & Hcalls & Hstages & Hall).
    exists (out :: outs), ((stage, inData') :: new).
    cbn [map fst snd]. rewrite Hh, Hcalls, <- !app_assoc. cbn [app].
    repeat split.
    + f_equal. exact (Invoke_name stage inData' out Hinv). exact Hnames.
    + f_equal. exact Hstages.
    + constructor; assumption.
Qed.

Lemma Format_loop_app (pre post : list Stage) :
  forall (inData : StageChannel) (intmed : list StageEntry)
         (calls : list call) (h : list StageEntry) (c1 : list call),
    Format_loop ids pcv pre inData intmed calls = (Ret h, c1) ->
    exists inData',
      Format_loop ids pcv (pre ++ post) inData intmed calls =
      Format_loop ids pcv post inData' h c1.
Proof.
  induction pre as [| stage rest IH]; intros inData intmed calls h c1 H.
  - cbn in H. inv H. exists inData. reflexivity.
  - cbn [Format_loop app] in *.
    destruct (Invoke ids pcv stage _) as [[out |] | e];
      try discriminate H.
    eapply IH. exact H.
Qed.

Lemma Format_invalid (self : Pipeline) (data : DataUnit)
    (calls : list call) :
  valid (raw data) = false ->
  Format ids pcv self data calls = (Ret Zero, calls).
Proof. intro Hinvalid. unfold Format. now rewrite Hinvalid. Qed.

(** C6: a unit whose [raw.valid] is false makes [Format] return the
    integer [0] with the record of invoked stages as it was: no stage
    ran; and [0] is no [FormattedData]. *)
Theorem Format_invalid_short_circuits (self : Pipeline) (data : DataUnit)
    (calls : list call) :
  valid (raw data) = false ->
  Format ids pcv self data calls = (Ret Zero, calls) /\
  forall fd, Zero <> Formatted fd.
Proof.
  intro Hinvalid. split.
  - apply Format_invalid, Hinvalid.
  - discriminate.
Qed.

(** C7: the [FormattedData] that [Format] returns for a valid unit has
    the unit's raw data as [base]; its [proc] starts with
    [("Disk", data)] and goes on with one [(name, channel)] entry per
    configured stage, in order, each what that stage's [Invoke]
    returned. *)
Theorem Format_history (self : Pipeline) (data : DataUnit)
    (calls calls' : list call) (fd : FormattedData) :
  valid (raw data) = true ->
  Format ids pcv self data calls = (Ret (Formatted fd), calls') ->
  history_of_run ids pcv self data calls calls' fd.
Proof.
  intros Hvalid H. unfold history_of_run. unfold Format in H. rewrite Hvalid in H. cbn [negb] in H.
  destruct (Format_loop ids pcv (stages (cfg self)) _ _ calls)
    as [[h | e] c1] eqn:Hloop; inv H.
  apply Format_loop_returns in Hloop.
  destruct Hloop as (outs & new & Hh & Hrest).
  cbn [base proc]. subst h. cbn [app].
  split; [ reflexivity | split; [ reflexivity | ] ].
  exists outs, new. split; [ reflexivity | exact Hrest ].
Qed.

(** When every unit is invalid, [FormatSet] returns one [0] per unit and
    invokes nothing. *)
Lemma FormatSet_loop_all_invalid (self : Pipeline) (todo : list DataUnit) :
  forall (done : list FormatResult) (calls : list call),
    Forall (fun u => valid (raw u) = false) todo ->
    FormatSet_loop ids pcv self todo done calls
    = (Ret (done ++ map (fun _ => Zero) todo), calls).
Proof.
  induction todo as [| u rest IH]; intros done calls Hall.
  - cbn. now rewrite app_nil_r.
  - inv Hall. cbn [FormatSet_loop].
    rewrite (Format_invalid self u calls) by assumption.
    rewrite IH by assumption. cbn [map]. now rewrite <- app_assoc.
Qed.

End FormatFacts.

Section FormatSetFacts.

Variable ids : ChannelIds.
Variable pcv : PlantCV.

Lemma Format_result_of_unit (self : Pipeline) (u : DataUnit)
    (calls calls' : list call) (r : FormatResult) :
  Format ids pcv self u calls = (Ret r, calls') -> result_of_unit u r.
Proof.
  unfold Format, result_of_unit.
  destruct (valid (raw u)); cbn [negb].
  - destruct (Format_loop _ _ _ _ _ _) as [[h | e] c1]; intro H; inv H.
    eexists. split; reflexivity.
  - intro H. now inv H.
Qed.

Lemma FormatSet_loop_returns (self : Pipeline) (todo : list DataUnit) :
  forall (done out : list FormatResult) (calls calls' : list call),
    FormatSet_loop ids pcv self todo done calls = (Ret out, calls') ->
    exists rs, out = done ++ rs /\ Forall2 result_of_unit todo rs.
Proof.
  induction todo as [| u rest IH]; intros done out calls calls' H.
  - cbn in H. inv H. exists []. split; [ now rewrite app_nil_r | constructor ].
  - cbn [FormatSet_loop] in H.
    destruct (Format ids pcv self u calls) as [[r | e] c1] eqn:Hu;
      try discriminate H.
    apply IH in H. destruct H as (rs & Hout & Hall).
    exists (r :: rs). split.
    + rewrite Hout, <- app_assoc. reflexivity.
    + constructor; [ | exact Hall ].
      exact (Format_result_of_unit self u calls c1 r Hu).
Qed.

Lemma FormatSet_loop_results (self : Pipeline) (todo : list DataUnit) :
  forall (done out : list FormatResult) (calls calls' : list call),
    FormatSet_loop ids pcv self todo done calls = (Ret out, calls') ->
    exists rs,
      out = done ++ rs /\ results_of_Format ids pcv self todo rs calls calls'.
Proof.
  induction todo as [| u rest IH]; intros done out calls calls' H.
  - cbn in H. inv H. exists []. split; [ now rewrite app_nil_r | reflexivity ].
  - cbn [FormatSet_loop] in H.
    destruct (Format ids pcv self u calls) as [[r | e] c1] eqn:Hu;
      try discriminate H.
    apply IH in H. destruct H as (rs & Hout & Hall).
    exists (r :: rs). split.
    + rewrite Hout, <- app_assoc. reflexivity.
    + cbn [results_of_Format]. exists c1. split; [ exact Hu | exact Hall ].
Qed.

(** The other way round: when the calls of [Format], one after the
    other, return, [FormatSet] returns their results. *)
Lemma FormatSet_returns_the_results (self : Pipeline)
    (data : list DataUnit) :
  forall (done out : list FormatResult) (calls calls' : list call),
    results_of_Format ids pcv self data out calls calls' ->
    FormatSet_loop ids pcv self data done calls = (Ret (done ++ out), calls').
Proof.
  induction data as [| u rest IH]; intros done out calls calls' H;
    destruct out as [| r out]; cbn [results_of_Format] in H;
    try contradiction.
  - subst calls'. cbn. now rewrite app_nil_r.
  - destruct H as (c1 & Hu & Hrest). cbn [FormatSet_loop]. rewrite Hu.
    rewrite (IH (done ++ [r]) out c1 calls' Hrest), <- app_assoc.
    reflexivity.
Qed.

(** C5, as the code has it: the list [FormatSet] returns has one entry
    per unit, in input order, each what [Format] returned for that unit:
    the integer [0] for an invalid unit, a [FormattedData] on the unit's
    raw data for a valid one. *)
Theorem FormatSet_one_result_per_unit (self : Pipeline)
    (data : list DataUnit) (calls calls' : list call)
    (out : list FormatResult) :
  FormatSet ids pcv self data calls = (Ret out, calls') ->
  List.length out = List.length data /\
  Forall2 result_of_unit data out /\
  results_of_Format ids pcv self data out calls calls'.
Proof.
  intro H. pose proof H as H'.
  apply FormatSet_loop_returns in H.
  destruct H as (rs & Hout & Hall). cbn [app] in Hout. subst rs.
  split; [ symmetry; exact (Forall2_length Hall) | ].
  split; [ exact Hall | ].
  apply FormatSet_loop_results in H'.
  destruct H' as (rs & Hout & Hres). cbn [app] in Hout. subst rs.
  exact Hres.
Qed.

(** C10: when [outChannelId] is neither the single-image nor the
    double-image identifier, [Consolidation.Invoke] returns [None]
    whatever its input, and a run of [Format] that reaches the stage
    raises [TypeError] at [out[1]]. *)
Theorem Consolidation_other_output_returns_None
    (ccfg : ConsolidationConfig) (inData : StageChannel)
    (self : Pipeline) (pre post : list Stage) (data : DataUnit)
    (calls c1 : list call) (h : list StageEntry) :
  outChannelId ccfg <> SingleImageChannel_ID ids ->
  outChannelId ccfg <> DoubleImageChannel_ID ids ->
  stages (cfg self) = pre ++ Consolidation ccfg :: post ->
  valid (raw data) = true ->
  Format_loop ids pcv pre (SingleImageChannel (rgb (raw data)))
              [("Disk", ODataUnit data)] calls = (Ret h, c1) ->
  Consolidation_Invoke ids ccfg inData = Ret None /\
  Format ids pcv self data calls
  = (Raise TypeError, c1 ++ [(Consolidation ccfg, SnapshotChannel h)]).
Proof.
  intros Hs Hd Hstages Hvalid Hpre.
  apply Z.eqb_neq in Hs, Hd.
  assert (Hnone : forall c, Consolidation_Invoke ids ccfg c = Ret None).
  { intro c. unfold Consolidation_Invoke. now rewrite Hs, Hd. }
  split; [ apply Hnone | ].
  unfold Format. rewrite Hvalid, Hstages. cbn [negb].
  destruct (Format_loop_app ids pcv pre (Consolidation ccfg :: post)
              _ _ _ _ _ Hpre) as [inData' Happ].
  rewrite Happ. cbn [Format_loop GetInterfaceIDs fst Invoke].
  rewrite Z.eqb_refl, Hnone. reflexivity.
Qed.

End FormatSetFacts.

(** ** RigidSegmentation *)

Section RigidFacts.

Variable pcv : PlantCV.

Lemma roi_result_zero_area (p : pyimg) (objs : list contour)
    (objH : hierarchy) (roi : contour) (rh : hierarchy)
    (xCont : list contour) (xHier : hierarchy) (mk : ndarray) (pArea : Z) :
  roi_objects pcv p roi rh objs objH = Ret (xCont, xHier, mk, pArea) ->
  pArea <= 0 ->
  roi_result pcv p objs objH roi rh = Ret ([], []).
Proof.
  intros Hobj Harea. unfold roi_result. rewrite Hobj. cbn [bind].
  apply Z.leb_le in Harea. now rewrite Harea.
Qed.

(** The loop appends, region by region, what [roi_result] gives. *)
Lemma rigid_loop_returns (p : pyimg) (objs : list contour)
    (objH : hierarchy) (roiH : list hierarchy) (todo : list contour) :
  forall (i : nat) (oC oC' : list contour) (oM oM' : list ndarray),
    rigid_loop pcv p objs objH roiH todo i oC oM = Ret (oC', oM') ->
    exists rs : list (contour * ndarray),
      oC' = oC ++ map fst rs /\
      oM' = oM ++ map snd rs /\
      List.length rs = List.length todo /\
      forall j roi,
        nth_error todo j = Some roi ->
        exists rh r,
          nth_error roiH (i + j) = Some rh /\
          roi_result pcv p objs objH roi rh = Ret r /\
          nth_error rs j = Some r.
Proof.
  induction todo as [| roi rest IH]; intros i oC oC' oM oM' H.
  - cbn in H. inv H. exists []. cbn. rewrite !app_nil_r.
    repeat split. intros [| j] roi Hj; discriminate Hj.
  - cbn [rigid_loop] in H. unfold index in H.
    destruct (nth_error roiH i) as [rh |] eqn:Hrh;
      cbn [bind] in H; [ | discriminate H ].
    destruct (roi_objects pcv p roi rh objs objH)
      as [[[[xCont xHier] mk] pArea] | e] eqn:Hobj;
      cbn [bind] in H; [ | discriminate H ].
    assert (Hstep : exists r,
               roi_result pcv p objs objH roi rh = Ret r /\
               rigid_loop pcv p objs objH roiH rest (S i)
                          (oC ++ [fst r]) (oM ++ [snd r])
               = Ret (oC', oM')).
    { unfold roi_result. rewrite Hobj. cbn [bind].
      destruct (Z.leb pArea 0).
      - exists ([], []). split; [ reflexivity | exact H ].
      - destruct (object_composition pcv p xCont xHier)
          as [[pCont pMask] | e] eqn:Hcomp;
          cbn [bind] in H; [ | discriminate H ].
        exists (pCont, pMask). split; [ reflexivity | exact H ]. }
    destruct Hstep as (r & Hr & Hrest).
    apply IH in Hrest.
    destruct Hrest as (rs & HoC & HoM & Hlen & Hnth).
    exists (r :: rs). cbn [map List.length].
    rewrite HoC, HoM, <- !app_assoc. cbn [app].
    repeat split; [ now f_equal | ].
    intros [| j] roi' Hj; cbn [nth_error] in Hj.
    + inv Hj. exists rh, r. rewrite Nat.add_0_r. repeat split; assumption.
    + destruct (Hnth j roi' Hj) as (rh' & r' & H1 & H2 & H3).
      exists rh', r'. rewrite <- plus_n_Sm. repeat split; assumption.
Qed.

(** The loop returns when every region has a hierarchy and a result. *)
Lemma rigid_loop_total (p : pyimg) (objs : list contour)
    (objH : hierarchy) (roiH : list hierarchy) (todo : list contour) :
  forall (i : nat) (oC : list contour) (oM : list ndarray),
    (i + List.length todo <= List.length roiH)%nat ->
    (forall roi rh, exists r,
        roi_result pcv p objs objH roi rh = Ret r) ->
    exists r, rigid_loop pcv p objs objH roiH todo i oC oM = Ret r.
Proof.
  induction todo as [| roi rest IH]; intros i oC oM Hlen Hres.
  - eexists. reflexivity.
  - cbn [rigid_loop List.length] in *. unfold index.
    destruct (nth_error roiH i) as [rh |] eqn:Hrh.
    2:{ apply nth_error_None in Hrh. lia. }
    cbn [bind].
    destruct (Hres roi rh) as [r Hr]. unfold roi_result in Hr.
    destruct (roi_objects pcv p roi rh objs objH)
      as [[[[xCont xHier] mk] pArea] | e];
      cbn [bind] in *; [ | discriminate Hr ].
    destruct (Z.leb pArea 0).
    + apply IH; [ lia | exact Hres ].
    + destruct (object_composition pcv p xCont xHier) as [[pCont pMask] | e];
        cbn [bind]; [ | discriminate Hr ].
      apply IH; [ lia | exact Hres ].
Qed.

(** [Invoke] asks [pcv.roi.multi] for the circles the stage is configured
    with. *)
Lemma rigid_roi_args_configured (rCfg : RigidSegmentationConfig) :
  circles_of_args (rigid_roi_args rCfg) = configured_rois rCfg.
Proof. destruct rCfg; reflexivity. Qed.

(** A grid is configured with rows times columns regions, a custom layout
    with one per centre. *)
Lemma configured_rois_length (rCfg : RigidSegmentationConfig) :
  List.length (configured_rois rCfg)
  = match rCfg with
    | RigidGrid g => (Z.to_nat (g_rows g) * Z.to_nat (g_cols g))%nat
    | RigidCustom c => List.length (c_centers c)
    end.
Proof.
  destruct rCfg as [g | c]; cbn [configured_rois]; rewrite length_map;
    [ | reflexivity ].
  unfold grid_centers.
  assert (H : forall rows : list nat,
             List.length
               (flat_map
                  (fun i =>
                     map (fun j =>
                            (fst (g_start g) + Z.of_nat j * fst (g_spacing g),
                             snd (g_start g) + Z.of_nat i * snd (g_spacing g)))
                         (seq 0 (Z.to_nat (g_cols g)))) rows)
             = (List.length rows * Z.to_nat (g_cols g))%nat);
    [ | now rewrite H, length_seq ].
  induction rows as [| i rows IH]; cbn [flat_map List.length];
    [ reflexivity | ].
  rewrite length_app, length_map, length_seq, IH. reflexivity.
Qed.

(** C3: the contour list and the mask list of the channel returned have
    one entry per configured region of interest; entry [i] is what the
    region of configured circle [i] gives, the empty placeholder when
    its covered area is not positive. *)
Theorem RigidSegmentation_one_entry_per_roi
    (region : pyimg -> point * Z -> contour * hierarchy)
    (rCfg : RigidSegmentationConfig) (p s : pyimg) (tag : string)
    (out : StageOutput) :
  roi_multi_follows_circles pcv region ->
  RigidSegmentation_Invoke pcv rCfg (DoubleImageChannel p s tag) = Ret out ->
  one_entry_per_roi pcv region rCfg p s tag out.
Proof.
  intros Hcontract H. unfold one_entry_per_roi.
  unfold RigidSegmentation_Invoke in H.
  destruct (find_objects pcv p s) as [[objs objH] | e] eqn:Hfind;
    cbn [bind] in H; [ | discriminate H ].
  destruct (roi_multi pcv p (rigid_roi_args rCfg))
    as [[rois roiH] | e] eqn:Hmulti;
    cbn [bind] in H; [ | discriminate H ].
  destruct (rigid_loop pcv p objs objH roiH rois 0 [] [])
    as [[oC oM] | e] eqn:Hloop;
    cbn [bind] in H; [ | discriminate H ].
  inv H.
  apply rigid_loop_returns in Hloop.
  destruct Hloop as (rs & HoC & HoM & Hlen & Hnth).
  cbn [app] in HoC, HoM. subst oC oM.
  destruct (Hcontract _ _ _ _ Hmulti) as [Hrois HroiH].
  rewrite rigid_roi_args_configured in Hrois, HroiH.
  exists objs, objH, (map fst rs), (map snd rs).
  rewrite !length_map, Hlen, Hrois, length_map.
  split; [ reflexivity | ]. split; [ reflexivity | ].
  split; [ reflexivity | ]. split; [ reflexivity | ].
  intros i circle Hi.
  assert (Hroi : nth_error rois i = Some (fst (region p circle))).
  { rewrite Hrois, nth_error_map, Hi. reflexivity. }
  destruct (Hnth i _ Hroi) as (rh & [c m] & Hrh & Hr & Hrs).
  cbn [Nat.add] in Hrh.
  rewrite HroiH, nth_error_map, Hi in Hrh. cbn [option_map] in Hrh.
  inv Hrh.
  exists c, m.
  split; [ exact Hr | ].
  split; [ now rewrite nth_error_map, Hrs | ].
  split; [ now rewrite nth_error_map, Hrs | ].
  intros xCont xHier mk pArea Hobj Harea.
  pose proof (roi_result_zero_area p objs objH _ _ xCont xHier mk pArea
                Hobj Harea) as Hz.
  rewrite Hz in Hr. inv Hr. split; reflexivity.
Qed.

(** [Invoke] returns whenever the library calls do and [pcv.roi.multi]
    gives a hierarchy for every region. *)
Lemma RigidSegmentation_returns (rCfg : RigidSegmentationConfig)
    (p s : pyimg) (tag : string) (objs : list contour) (objH : hierarchy)
    (rois : list contour) (roiH : list hierarchy) :
  find_objects pcv p s = Ret (objs, objH) ->
  roi_multi pcv p (rigid_roi_args rCfg) = Ret (rois, roiH) ->
  (List.length rois <= List.length roiH)%nat ->
  (forall roi rh, exists r, roi_result pcv p objs objH roi rh = Ret r) ->
  exists oContours oMasks,
    RigidSegmentation_Invoke pcv rCfg (DoubleImageChannel p s tag)
    = Ret (Some ("RigidSegmentation",
                 SegmentationChannel oContours oMasks p tag)).
Proof.
  intros Hfind Hmulti Hlen Hres. unfold RigidSegmentation_Invoke.
  rewrite Hfind. cbn [bind]. rewrite Hmulti. cbn [bind].
  destruct (rigid_loop_total p objs objH roiH rois 0 [] [] Hlen Hres)
    as [[oC oM] Hloop].
  rewrite Hloop. cbn [bind]. exists oC, oM. reflexivity.
Qed.

End RigidFacts.


(** ** DBSCANSegmentation *)

Section DBSCANFacts.

Variable pcv : PlantCV.

Lemma dbscan_loop_returns (p : pyimg) (cMsks : list ndarray) :
  forall (retMsks ms : list ndarray) (retCnts cs : list contour),
    dbscan_loop pcv p cMsks retMsks retCnts = Ret (ms, cs) ->
    ms = retMsks ++ cMsks /\
    List.length cs = (List.length retCnts + List.length cMsks)%nat.
Proof.
  induction cMsks as [| mask rest IH]; intros retMsks ms retCnts cs H.
  - cbn in H. inv H. rewrite app_nil_r. cbn. split; [ reflexivity | lia ].
  - cbn [dbscan_loop] in H.
    destruct (from_binary_image pcv p mask) as [cnt | e];
      cbn [bind] in H; [ | discriminate H ].
    apply IH in H. destruct H as [Hms Hcs].
    rewrite Hms, Hcs, <- app_assoc, length_app. cbn. split; [ reflexivity | lia ].
Qed.

(** The masks [Invoke] returns are the clusters of the first and only
    clustering, as they come. *)
Lemma DBSCANSegmentation_masks_are_first_clusters
    (cfg : DBSCANSegmentationConfig) (p s : pyimg) (tag : string)
    (out : StageOutput) :
  DBSCANSegmentation_Invoke pcv cfg (DoubleImageChannel p s tag) = Ret out ->
  exists x cMsks,
    spatial_clustering pcv s (minClusterSize cfg) (epsilon cfg)
      = Ret (x, cMsks) /\
    output_masks out = Some cMsks.
Proof.
  unfold DBSCANSegmentation_Invoke. intro H.
  destruct (spatial_clustering pcv s (minClusterSize cfg) (epsilon cfg))
    as [[x cMsks] | e]; cbn [bind] in H; [ | discriminate H ].
  destruct (dbscan_loop pcv p cMsks [] []) as [[ms cs] | e] eqn:Hloop;
    cbn [bind] in H; [ | discriminate H ].
  inv H. apply dbscan_loop_returns in Hloop. destruct Hloop as [Hms _].
  exists x, cMsks. split; [ reflexivity | ]. cbn. now rewrite Hms.
Qed.

End DBSCANFacts.

(** C2: on a mask image whose one top-level cluster splits in two when
    clustered again, [Invoke] returns that cluster as it is, where the
    refinement of the specification returns its two stable parts; and
    [extractSubMasks], had it been called on the cluster, raises
    [TypeError] at its recursive call. *)
Theorem DBSCANSegmentation_returns_unrefined_clusters :
  exists out,
    DBSCANSegmentation_Invoke Sample.pcv Sample.segDB_cfg
      (DoubleImageChannel Sample.three_plants Sample.splitting_mask
                          "image_2023-02-13 16_52_27.jpg") = Ret out /\
    output_masks out = Some [[[1; 1]; [5; 5]]] /\
    spec_dbscan_masks Sample.pcv 2 Sample.segDB_cfg Sample.splitting_mask
      = Ret [[[1; 1]]; [[5; 5]]] /\
    extractSubMasks Sample.pcv Sample.segDB_cfg [[[1; 1]; [5; 5]]] []
      = Raise TypeError.
Proof.
  eexists. split; [ reflexivity | ].
  split; [ reflexivity | ]. split; reflexivity.
Qed.

(** ** The code on the sample instance *)

(** The region the sample library makes for a circle: its centre. *)
Lemma Sample_roi_multi_follows_circles :
  roi_multi_follows_circles Sample.pcv (fun _ circle => ([fst circle], [])).
Proof.
  intros img a rois roiH H. cbn in H.
  destruct a as [coord radius spacing nrows ncols | coord radius];
    inv H; cbn [circles_of_args]; rewrite !map_map; split; reflexivity.
Qed.

(** The 2 by 2 grid on an image with plants at three of the four centres:
    four positions, the placeholder at the fourth. *)
Lemma RigidSegmentation_one_entry_per_roi_witness :
  roi_multi_follows_circles Sample.pcv (fun _ circle => ([fst circle], [])) /\
  configured_rois Sample.grid2x2
  = [((0, 0), 3); ((10, 0), 3); ((0, 10), 3); ((10, 10), 3)] /\
  one_entry_per_roi Sample.pcv (fun _ circle => ([fst circle], []))
    Sample.grid2x2
    Sample.three_plants Sample.three_plants "image_2023-02-13 16_52_27.jpg"
    (Some ("RigidSegmentation",
           SegmentationChannel
             [[(0, 0)]; [(10, 0)]; [(0, 10)]; []]
             [[[1]]; [[1]]; [[1]]; []]
             Sample.three_plants "image_2023-02-13 16_52_27.jpg")).
Proof.
  split; [ exact Sample_roi_multi_follows_circles | ].
  split; [ reflexivity | ].
  apply (RigidSegmentation_one_entry_per_roi Sample.pcv
           (fun _ circle => ([fst circle], []))).
  - exact Sample_roi_multi_follows_circles.
  - reflexivity.
Defined.

(** C4 as stated fails: "WhiteBalance" names no entry of this history, and
    [FindOutput] returns [0], which [Invoke] hands on as an image. *)
Lemma FindOutput_absent_is_not_a_failure :
  FindOutput "WhiteBalance" [("Disk", ODataUnit Sample.day)] = Ret (Int 0) /\
  (forall e, FindOutput "WhiteBalance" [("Disk", ODataUnit Sample.day)]
             <> Raise e) /\
  Consolidation_Invoke Sample.ids
    {| stageNames := ["WhiteBalance"];
       outChannelId := SingleImageChannel_ID Sample.ids |}
    (SnapshotChannel [("Disk", ODataUnit Sample.day)])
  = Ret (Some ("Consolidation", SingleImageChannel (Int 0))).
Proof.
  split; [ reflexivity | split; [ discriminate | reflexivity ] ].
Qed.

Lemma FindOutput_absent_returns_zero_witness :
  Forall (fun entry : StageEntry => fst entry <> "WhiteBalance")
         [("Disk", ODataUnit Sample.day)] /\
  FindOutput "WhiteBalance" [("Disk", ODataUnit Sample.day)] = Ret (Int 0) /\
  Consolidation_Invoke Sample.ids
    {| stageNames := ["WhiteBalance"];
       outChannelId := SingleImageChannel_ID Sample.ids |}
    (SnapshotChannel [("Disk", ODataUnit Sample.day)])
  = Ret (Some ("Consolidation", SingleImageChannel (Int 0))).
Proof.
  assert (H : Forall (fun entry : StageEntry => fst entry <> "WhiteBalance")
                     [("Disk", ODataUnit Sample.day)]).
  { constructor; [ cbn; discriminate | constructor ]. }
  split; [ exact H | ].
  exact (FindOutput_absent_returns_zero Sample.ids "WhiteBalance" []
           [("Disk", ODataUnit Sample.day)] H).
Defined.

(** C5 as stated fails: of one unit, invalid, [FormatSet] returns one
    result, not none. *)
Lemma FormatSet_keeps_a_result_for_an_invalid_unit :
  FormatSet Sample.ids Sample.pcv Sample.r_pipe [Sample.night] []
  = (Ret [Zero], []) /\
  List.length [Zero]
  <> (List.length [Sample.night] - count_invalid [Sample.night])%nat.
Proof. split; [ reflexivity | cbn; discriminate ]. Qed.

Lemma FormatSet_one_result_per_unit_witness :
  exists out calls',
    FormatSet Sample.ids Sample.pcv Sample.r_pipe
              [Sample.night; Sample.day; Sample.night] []
    = (Ret out, calls') /\
    List.length out = 3%nat /\
    Forall2 result_of_unit [Sample.night; Sample.day; Sample.night] out /\
    results_of_Format Sample.ids Sample.pcv Sample.r_pipe
      [Sample.night; Sample.day; Sample.night] out [] calls'.
Proof.
  eexists. eexists. split; [ reflexivity | ].
  eapply (FormatSet_one_result_per_unit Sample.ids Sample.pcv Sample.r_pipe
            [Sample.night; Sample.day; Sample.night] []).
  reflexivity.
Defined.

Lemma Format_invalid_short_circuits_witness :
  valid (raw Sample.night) = false /\
  Format Sample.ids Sample.pcv Sample.r_pipe Sample.night [] = (Ret Zero, []) /\
  forall fd, Zero <> Formatted fd.
Proof.
  split; [ reflexivity | ].
  apply (Format_invalid_short_circuits Sample.ids Sample.pcv Sample.r_pipe
           Sample.night []).
  reflexivity.
Defined.

Lemma Format_history_witness :
  exists fd calls',
    valid (raw Sample.day) = true /\
    Format Sample.ids Sample.pcv Sample.r_pipe Sample.day []
    = (Ret (Formatted fd), calls') /\
    history_of_run Sample.ids Sample.pcv Sample.r_pipe Sample.day [] calls' fd.
Proof.
  eexists. eexists. split; [ reflexivity | ]. split; [ reflexivity | ].
  eapply (Format_history Sample.ids Sample.pcv Sample.r_pipe Sample.day []);
    reflexivity.
Defined.

Lemma Consolidation_Disk_BinaryMask_witness :
  Consolidation_Invoke Sample.ids Sample.cs_C_cfg
    (SnapshotChannel
       [("Disk", ODataUnit Sample.day);
        ("BinaryMask", OChannel (SingleImageChannel (Arr [[1]])))])
  = Ret (Some ("Consolidation",
               DoubleImageChannel Sample.three_plants (Arr [[1]])
                                  "image_2023-02-13 16_52_27.jpg")).
Proof.
  apply (Consolidation_Disk_BinaryMask Sample.ids Sample.cs_C_cfg
           [("Disk", ODataUnit Sample.day);
            ("BinaryMask", OChannel (SingleImageChannel (Arr [[1]])))]
           "Disk" "BinaryMask" "Disk" Sample.day Sample.day (Arr [[1]]));
    try reflexivity.
  vm_compute. discriminate.
Defined.

Lemma Consolidation_other_output_returns_None_witness :
  Consolidation_Invoke Sample.ids Sample.cs_other_cfg (SnapshotChannel [])
  = Ret None /\
  Format Sample.ids Sample.pcv
    {| cfg := {| options := Sample.opts;
                 stages := [Sample.bm; Consolidation Sample.cs_other_cfg;
                            Sample.rSeg; Sample.analysis] |} |}
    Sample.day []
  = (Raise TypeError,
     [(Sample.bm, SingleImageChannel Sample.three_plants)] ++
     [(Consolidation Sample.cs_other_cfg,
       SnapshotChannel
         [("Disk", ODataUnit Sample.day);
          ("BinaryMask", OChannel (SingleImageChannel Sample.three_plants))])]).
Proof.
  apply (Consolidation_other_output_returns_None Sample.ids Sample.pcv
           Sample.cs_other_cfg (SnapshotChannel [])
           {| cfg := {| options := Sample.opts;
                        stages := [Sample.bm; Consolidation Sample.cs_other_cfg;
                                   Sample.rSeg; Sample.analysis] |} |}
           [Sample.bm] [Sample.rSeg; Sample.analysis] Sample.day []);
    try reflexivity; vm_compute; discriminate.
Defined.

(** ** The histories Consolidation is given in a run *)

Section RunHistories.

Variable ids : ChannelIds.
Variable pcv : PlantCV.

Lemma Invoke_stage_entry (s : Stage) (inData : StageChannel)
    (out : string * StageChannel) :
  Invoke ids pcv s inData = Ret (Some out) -> stage_entry (entry_of out).
Proof.
  intro H. pose proof (Invoke_name ids pcv s inData out H) as Hname.
  unfold stage_entry, entry_of. cbn [fst snd]. rewrite Hname. split.
  - destruct s; discriminate.
  - intro HBM. destruct s; try discriminate HBM.
    cbn [Invoke] in H. unfold BinaryMask_Invoke in H.
    crunch H. inv H. eexists. reflexivity.
Qed.

(** Every call of a Consolidation stage in the loop is on a snapshot of
    a run history, whether or not the loop returns. *)
Lemma Format_loop_snapshots (data : DataUnit) (todo : list Stage) :
  forall (inData : StageChannel) (intmed : list StageEntry)
         (calls : list call),
    run_history data intmed ->
    exists new,
      snd (Format_loop ids pcv todo inData intmed calls) = calls ++ new /\
      Forall (fun c : call =>
                forall ccfg, fst c = Consolidation ccfg ->
                exists h, snd c = SnapshotChannel h /\ run_history data h)
             new.
Proof.
  induction todo as [| stage rest IH]; intros inData intmed calls Hh.
  - exists []. cbn. split; [ now rewrite app_nil_r | constructor ].
  - cbn [Format_loop].
    set (inData' := if Z.eqb (fst (GetInterfaceIDs ids stage))
                             (SnapshotChannel_ID ids)
                    then SnapshotChannel intmed else inData).
    assert (Hcall : forall ccfg, stage = Consolidation ccfg ->
              exists h, inData' = SnapshotChannel h /\ run_history data h).
    { intros ccfg ->. exists intmed. subst inData'.
      cbn [GetInterfaceIDs fst]. rewrite Z.eqb_refl. split; [ reflexivity | exact Hh ]. }
    destruct (Invoke ids pcv stage inData') as [[out |] | e] eqn:Hinv.
    + assert (Hh' : run_history data (intmed ++ [entry_of out])).
      { destruct Hh as (r & -> & Hr). exists (r ++ [entry_of out]).
        split; [ reflexivity | ].
        apply Forall_app. split; [ exact Hr | ].
        constructor; [ | constructor ].
        exact (Invoke_stage_entry stage inData' out Hinv). }
      destruct (IH (snd out) (intmed ++ [entry_of out])
                   (calls ++ [(stage, inData')]) Hh')
        as (new & Hcalls & Hall).
      exists ((stage, inData') :: new). split.
      * unfold entry_of in Hcalls. cbv beta iota zeta.
        rewrite <- app_assoc in Hcalls. exact Hcalls.
      * constructor; [ exact Hcall | exact Hall ].
    + exists [(stage, inData')]. split; [ reflexivity | ].
      constructor; [ exact Hcall | constructor ].
    + exists [(stage, inData')]. split; [ reflexivity | ].
      constructor; [ exact Hcall | constructor ].
Qed.

Lemma Format_snapshots_are_run_histories (self : Pipeline)
    (data : DataUnit) (calls : list call) :
  exists new,
    snd (Format ids pcv self data calls) = calls ++ new /\
    Forall (fun c : call =>
              forall ccfg, fst c = Consolidation ccfg ->
              exists h, snd c = SnapshotChannel h /\ run_history data h)
           new.
Proof.
  unfold Format. destruct (valid (raw data)); cbn [negb].
  - destruct (Format_loop_snapshots data (stages (cfg self))
                (SingleImageChannel (rgb (raw data)))
                [("Disk", ODataUnit data)] calls) as (new & Hcalls & Hall).
    { exists []. split; [ reflexivity | constructor ]. }
    exists new. split; [ | exact Hall ].
    destruct (Format_loop _ _ _ _ _ _) as [[h | e] c1]; exact Hcalls.
  - exists []. cbn. split; [ now rewrite app_nil_r | constructor ].
Qed.

(** In a run history the first "Disk" entry and the first entry are the
    unit, and the first "BinaryMask" entry, when there is one, holds a
    single image. *)
Lemma run_history_entries (data : DataUnit) (history : list StageEntry) :
  run_history data history ->
  In "BinaryMask" (map fst history) ->
  first_entry "Disk" history = Some ("Disk", ODataUnit data) /\
  nth_error history 0 = Some ("Disk", ODataUnit data) /\
  exists m,
    first_entry "BinaryMask" history
    = Some ("BinaryMask", OChannel (SingleImageChannel m)).
Proof.
  intros (rest & -> & Hrest) Hin.
  split; [ reflexivity | split; [ reflexivity | ] ].
  cbn [map fst In] in Hin. destruct Hin as [Hin | Hin]; [ discriminate Hin | ].
  unfold first_entry. cbn [find fst]. cbn [String.eqb Ascii.eqb Bool.eqb].
  induction Hrest as [| [n o] rest [_ Hbm] _ IH]; cbn [map In] in Hin.
  - contradiction.
  - cbn [find fst]. destruct (String.eqb_spec n "BinaryMask") as [-> | Hne].
    + destruct (Hbm eq_refl) as [img Himg]. cbn [snd] in Himg. subst o.
      eexists. reflexivity.
    + apply IH. destruct Hin as [Hin | Hin]; [ contradiction | exact Hin ].
Qed.

(** C8 on the histories of a run: the primary image is the unit's raw
    image and the tag its source path. *)
Lemma Consolidation_Disk_BinaryMask_in_run (ccfg : ConsolidationConfig)
    (data : DataUnit) (history : list StageEntry) :
  stageNames ccfg = ["Disk"; "BinaryMask"] ->
  outChannelId ccfg = DoubleImageChannel_ID ids ->
  DoubleImageChannel_ID ids <> SingleImageChannel_ID ids ->
  run_history data history ->
  In "BinaryMask" (map fst history) ->
  exists m,
    first_entry "BinaryMask" history
    = Some ("BinaryMask", OChannel (SingleImageChannel m)) /\
    Consolidation_Invoke ids ccfg (SnapshotChannel history)
    = Ret (Some ("Consolidation",
                 DoubleImageChannel (rgb (raw data)) m
                                    (rgbFile (meta data)))).
Proof.
  intros Hnames Hout Hdistinct Hrun Hin.
  destruct (run_history_entries data history Hrun Hin)
    as (Hdisk & Hfirst & m & Hmask).
  exists m. split; [ exact Hmask | ].
  unfold Consolidation_Invoke. rewrite Hnames, Hout.
  apply Z.eqb_neq in Hdistinct. rewrite Hdistinct, Z.eqb_refl.
  cbn [index nth_error bind get_formatted].
  rewrite (FindOutput_Disk history "Disk" data Hdisk). cbn [bind].
  rewrite (FindOutput_stage "BinaryMask" history "BinaryMask" m
             ltac:(discriminate) Hmask).
  cbn [bind]. unfold index. rewrite Hfirst. reflexivity.
Qed.

End RunHistories.

(** ** Channel classes and the compatibility check *)

Section Variants.

Variable ids : ChannelIds.
Variable pcv : PlantCV.

Lemma GetInterfaceIDs_input (s : Stage) :
  fst (GetInterfaceIDs ids s) = id_of ids (input_variant s).
Proof. destruct s; reflexivity. Qed.

Lemma id_of_injective (v w : variant) :
  pairwise_distinct ids -> id_of ids v = id_of ids w -> v = w.
Proof.
  intros (H1 & H2 & H3 & H4 & H5 & H6).
  destruct v, w; cbn [id_of]; intro H;
    first [ reflexivity | congruence | symmetry in H; congruence ].
Qed.

(** A stage hands back a pair only when its input is of the class whose
    fields it reads. *)
Theorem Invoke_returns_only_on_declared_input (s : Stage)
    (inData : StageChannel) (out : string * StageChannel) :
  Invoke ids pcv s inData = Ret (Some out) ->
  variant_of inData = input_variant s.
Proof.
  destruct s; cbn [Invoke input_variant];
    unfold WhiteBalance_Invoke, ViewportAdjust_Invoke, BinaryMask_Invoke,
           Consolidation_Invoke, RigidSegmentation_Invoke,
           DBSCANSegmentation_Invoke, PlantAnalysis_Invoke, get_formatted;
    intro H; destruct inData; try discriminate H;
    try reflexivity; crunch H.
Qed.

(** Every stage but Consolidation raises [AttributeError] on an input of
    another class, before any library call. *)
Theorem Invoke_other_variant_raises (s : Stage) (inData : StageChannel) :
  is_Consolidation s = false ->
  variant_of inData <> input_variant s ->
  Invoke ids pcv s inData = Raise AttributeError.
Proof.
  intros Hs Hv.
  destruct s; try discriminate Hs; destruct inData;
    first [ reflexivity | exfalso; apply Hv; reflexivity ].
Qed.

Lemma Invoke_output_id (s : Stage) (inData : StageChannel)
    (out : string * StageChannel) :
  Invoke ids pcv s inData = Ret (Some out) ->
  id_of ids (variant_of (snd out)) = snd (GetInterfaceIDs ids s).
Proof.
  destruct s; cbn [Invoke GetInterfaceIDs snd];
    unfold WhiteBalance_Invoke, ViewportAdjust_Invoke, BinaryMask_Invoke,
           RigidSegmentation_Invoke, DBSCANSegmentation_Invoke,
           PlantAnalysis_Invoke;
    intro H.
  4:{ unfold Consolidation_Invoke in H.
      destruct (Z.eqb_spec (outChannelId cfg0) (SingleImageChannel_ID ids))
        as [E1 | _].
      - crunch H. inv H. cbn. now rewrite E1.
      - destruct (Z.eqb_spec (outChannelId cfg0) (DoubleImageChannel_ID ids))
          as [E2 | _]; [ | discriminate H ].
        crunch H. inv H. cbn. now rewrite E2. }
  all: crunch H; inv H; reflexivity.
Qed.

(** What a stage returns carries the stage's name and is of the class whose
    identifier the stage declares as its output. *)
Theorem Invoke_output_as_declared (s : Stage) (inData : StageChannel)
    (out : string * StageChannel) :
  Invoke ids pcv s inData = Ret (Some out) ->
  fst out = GetName s /\
  id_of ids (variant_of (snd out)) = snd (GetInterfaceIDs ids s).
Proof.
  intro H. split.
  - exact (Invoke_name ids pcv s inData out H).
  - exact (Invoke_output_id s inData out H).
Qed.

(** Along a checked stretch of stages every call is on a channel whose
    class has the identifier the stage declares as its input. *)
Lemma Format_loop_inputs_declared (todo : list Stage) :
  forall (prevIds : Z * Z) (inData : StageChannel)
         (intmed : list StageEntry) (calls : list call),
    compat_loop ids prevIds todo = true ->
    id_of ids (variant_of inData) = snd prevIds ->
    exists new,
      snd (Format_loop ids pcv todo inData intmed calls) = calls ++ new /\
      Forall (fun c : call =>
                id_of ids (variant_of (snd c))
                = fst (GetInterfaceIDs ids (fst c))) new.
Proof.
  induction todo as [| stage rest IH];
    intros prevIds inData intmed calls Hcompat Hin.
  - exists []. cbn. split; [ now rewrite app_nil_r | constructor ].
  - cbn [compat_loop] in Hcompat. cbn [Format_loop].
    set (inData' := if Z.eqb (fst (GetInterfaceIDs ids stage))
                             (SnapshotChannel_ID ids)
                    then SnapshotChannel intmed else inData).
    assert (Hcall : id_of ids (variant_of inData')
                    = fst (GetInterfaceIDs ids stage)).
    { subst inData'.
      destruct (Z.eqb_spec (fst (GetInterfaceIDs ids stage))
                           (SnapshotChannel_ID ids)) as [E | _].
      - cbn. now rewrite E.
      - cbn [negb andb] in Hcompat.
        destruct (Z.eqb_spec (snd prevIds) (fst (GetInterfaceIDs ids stage)))
          as [E | _]; [ | discriminate Hcompat ].
        now rewrite Hin. }
    assert (Hrest : compat_loop ids (GetInterfaceIDs ids stage) rest = true).
    { destruct (negb _ && negb _); [ discriminate Hcompat | exact Hcompat ]. }
    destruct (Invoke ids pcv stage inData') as [[out |] | e] eqn:Hinv.
    + destruct (IH (GetInterfaceIDs ids stage) (snd out)
                   (intmed ++ [(fst out, OChannel (snd out))])
                   (calls ++ [(stage, inData')]) Hrest
                   (Invoke_output_id stage inData' out Hinv))
        as (new & Hcalls & Hall).
      exists ((stage, inData') :: new). split.
      * cbv beta iota zeta. rewrite <- app_assoc in Hcalls. exact Hcalls.
      * constructor; [ exact Hcall | exact Hall ].
    + exists [(stage, inData')]. split; [ reflexivity | ].
      constructor; [ exact Hcall | constructor ].
    + exists [(stage, inData')]. split; [ reflexivity | ].
      constructor; [ exact Hcall | constructor ].
Qed.

(** In a pipeline that passed [IsCompatible] and whose first stage reads a
    single image or a snapshot, with pairwise distinct identifiers, every
    stage [Format] invokes is invoked on a channel of the class it reads,
    whether the run returns or raises. *)
Theorem compatible_pipeline_is_well_typed (self : Pipeline)
    (data : DataUnit) (calls : list call) (s : Stage) (rest : list Stage) :
  pairwise_distinct ids ->
  stages (cfg self) = s :: rest ->
  IsCompatible ids (stages (cfg self)) = Ret true ->
  input_variant s = VSingleImage \/ input_variant s = VSnapshot ->
  exists new,
    snd (Format ids pcv self data calls) = calls ++ new /\
    Forall (fun c : call => variant_of (snd c) = input_variant (fst c)) new.
Proof.
  intros Hdistinct Hstages Hcompat Hfirst.
  rewrite Hstages in Hcompat. cbn in Hcompat. inv Hcompat.
  unfold Format. destruct (valid (raw data)); cbn [negb].
  2:{ exists []. cbn. split; [ now rewrite app_nil_r | constructor ]. }
  destruct (Format_loop_inputs_declared (s :: rest)
              (0, SingleImageChannel_ID ids)
              (SingleImageChannel (rgb (raw data)))
              [("Disk", ODataUnit data)] calls) as (new & Hcalls & Hall).
  - cbn [compat_loop snd]. rewrite GetInterfaceIDs_input.
    destruct Hfirst as [-> | ->]; cbn [id_of]; rewrite Z.eqb_refl;
      cbn [negb andb]; rewrite ?andb_false_r; assumption.
  - reflexivity.
  - exists new. rewrite Hstages. split.
    + destruct (Format_loop _ _ _ _ _ _) as [[h | e] c1]; exact Hcalls.
    + eapply Forall_impl; [ | exact Hall ].
      intros c Hc. cbv beta in Hc. rewrite GetInterfaceIDs_input in Hc.
      exact (id_of_injective _ _ Hdistinct Hc).
Qed.

End Variants.

(** ** How Format threads channels, and where it stops *)

Section Threading.

Variable ids : ChannelIds.
Variable pcv : PlantCV.



(** A run that raises stops at the stage that failed: the stages before it
    returned, it is the last stage invoked, and it raised the exception of
    the run or returned [None], which raises [TypeError] at [out[1]]. *)
Lemma Format_loop_raise_stops (todo : list Stage) :
  forall (inData : StageChannel) (intmed : list StageEntry)
         (calls calls' : list call) (e : exn),
    Format_loop ids pcv todo inData intmed calls = (Raise e, calls') ->
    exists (pre : list Stage) (s : Stage) (post : list Stage)
           (c : StageChannel) (before : list call),
      todo = pre ++ s :: post /\
      calls' = calls ++ before ++ [(s, c)] /\
      map fst before = pre /\
      Forall (fun k : call =>
                exists out, Invoke ids pcv (fst k) (snd k) = Ret (Some out))
             before /\
      (Invoke ids pcv s c = Raise e \/
       (Invoke ids pcv s c = Ret None /\ e = TypeError)).
Proof.
  induction todo as [| stage rest IH]; intros inData intmed calls calls' e H.
  - discriminate H.
  - cbn [Format_loop] in H.
    set (inData' := if Z.eqb (fst (GetInterfaceIDs ids stage))
                             (SnapshotChannel_ID ids)
                    then SnapshotChannel intmed else inData) in *.
    destruct (Invoke ids pcv stage inData') as [[out |] | e'] eqn:Hinv.
    + apply IH in H.
      destruct H as (pre & s & post & c & before & Ht & Hc & Hm & Hall & Hs).
      exists (stage :: pre), s, post, c, ((stage, inData') :: before).
      subst rest calls'. cbn [map fst app]. rewrite <- app_assoc, Hm.
      repeat split; try assumption.
      constructor; [ exists out; exact Hinv | exact Hall ].
    + inv H. exists [], stage, rest, inData', [].
      repeat split; [ constructor | right; split; [ exact Hinv | reflexivity ] ].
    + inv H. exists [], stage, rest, inData', [].
      repeat split; [ constructor | left; exact Hinv ].
Qed.

Theorem Format_raise_stops_at_failing_stage (self : Pipeline)
    (data : DataUnit) (calls calls' : list call) (e : exn) :
  Format ids pcv self data calls = (Raise e, calls') ->
  exists (pre : list Stage) (s : Stage) (post : list Stage)
         (c : StageChannel) (before : list call),
    stages (cfg self) = pre ++ s :: post /\
    calls' = calls ++ before ++ [(s, c)] /\
    map fst before = pre /\
    Forall (fun k : call =>
              exists out, Invoke ids pcv (fst k) (snd k) = Ret (Some out))
           before /\
    (Invoke ids pcv s c = Raise e \/
     (Invoke ids pcv s c = Ret None /\ e = TypeError)).
Proof.
  unfold Format. destruct (valid (raw data)); cbn [negb]; [ | discriminate ].
  destruct (Format_loop ids pcv (stages (cfg self)) _ _ calls)
    as [[h | e'] c1] eqn:Hloop; intro H; inv H.
  exact (Format_loop_raise_stops _ _ _ _ _ _ Hloop).
Qed.

(** [IsCompatible] does not look at the input of the first stage: a
    pipeline that starts with a stage reading a double image or a
    segmentation is constructed, and every run on a valid unit raises
    [AttributeError] in that first stage. *)
Theorem first_stage_input_is_not_checked (o : Options) (s : Stage)
    (rest : list Stage) (data : DataUnit) (calls : list call) :
  input_variant s = VDoubleImage \/ input_variant s = VSegmentation ->
  valid (raw data) = true ->
  Pipeline_init ids {| options := o; stages := [s] |}
  = Ret {| cfg := {| options := o; stages := [s] |} |} /\
  exists c,
    Format ids pcv {| cfg := {| options := o; stages := s :: rest |} |}
           data calls
    = (Raise AttributeError, calls ++ [(s, c)]).
Proof.
  intros Hs Hvalid. split; [ reflexivity | ].
  unfold Format. rewrite Hvalid. cbn [negb cfg stages Format_loop].
  destruct s; cbn [input_variant] in Hs;
    try (destruct Hs; discriminate);
    cbn [Invoke];
    destruct (Z.eqb _ _); eexists; reflexivity.
Qed.

End Threading.

(** ** FormatSet, unit by unit *)

Section FormatSetUnits.

Variable ids : ChannelIds.
Variable pcv : PlantCV.

(** What the loop returns or raises does not depend on the record of
    earlier invocations. *)
Lemma Format_loop_result_independent (todo : list Stage) :
  forall (inData : StageChannel) (intmed : list StageEntry)
         (calls calls0 : list call),
    fst (Format_loop ids pcv todo inData intmed calls)
    = fst (Format_loop ids pcv todo inData intmed calls0).
Proof.
  induction todo as [| stage rest IH]; intros inData intmed calls calls0.
  - reflexivity.
  - cbn [Format_loop].
    destruct (Invoke ids pcv stage _) as [[out |] | e];
      [ apply IH | reflexivity | reflexivity ].
Qed.

Lemma Format_result_independent (self : Pipeline) (u : DataUnit)
    (calls calls0 : list call) :
  fst (Format ids pcv self u calls) = fst (Format ids pcv self u calls0).
Proof.
  unfold Format. destruct (valid (raw u)); cbn [negb]; [ | reflexivity ].
  pose proof (Format_loop_result_independent (stages (cfg self))
                (SingleImageChannel (rgb (raw u)))
                [("Disk", ODataUnit u)] calls calls0) as H.
  destruct (Format_loop ids pcv _ _ _ calls) as [[h | e] c1];
    destruct (Format_loop ids pcv _ _ _ calls0) as [[h0 | e0] c0];
    cbn [fst] in *; congruence.
Qed.

Lemma FormatSet_loop_raise (self : Pipeline) (todo : list DataUnit) :
  forall (done : list FormatResult) (calls : list call) (e : exn),
    fst (FormatSet_loop ids pcv self todo done calls) = Raise e ->
    exists (pre : list DataUnit) (u : DataUnit) (post : list DataUnit),
      todo = pre ++ u :: post /\
      Forall (fun v => exists r, fst (Format ids pcv self v []) = Ret r) pre /\
      fst (Format ids pcv self u []) = Raise e /\
      snd (FormatSet_loop ids pcv self todo done calls)
      = snd (FormatSet_loop ids pcv self (pre ++ [u]) done calls).
Proof.
  induction todo as [| u rest IH]; intros done calls e H.
  - discriminate H.
  - cbn [FormatSet_loop] in H |- *.
    pose proof (Format_result_independent self u calls []) as Hu.
    destruct (Format ids pcv self u calls) as [[r | e'] c1] eqn:Hfu;
      cbn [fst] in Hu.
    + apply IH in H.
      destruct H as (pre & v & post & -> & Hpre & Hv & Hlog).
      exists (u :: pre), v, post. cbn [app FormatSet_loop]. rewrite Hfu.
      repeat split; try assumption.
      constructor; [ exists r; now symmetry | exact Hpre ].
    + cbn [fst] in H. inv H. exists [], u, rest.
      cbn [app FormatSet_loop]. rewrite Hfu.
      repeat split; [ constructor | now symmetry ].
Qed.

(** When [FormatSet] raises, it is the exception of the first unit whose
    [Format] raises; the units before it returned, their results are
    dropped with the list, and no stage runs on the units after it. *)
Theorem FormatSet_raise_stops_at_failing_unit (self : Pipeline)
    (data : list DataUnit) (calls : list call) (e : exn) :
  fst (FormatSet ids pcv self data calls) = Raise e ->
  exists (pre : list DataUnit) (u : DataUnit) (post : list DataUnit),
    data = pre ++ u :: post /\
    Forall (fun v => exists r, fst (Format ids pcv self v []) = Ret r) pre /\
    fst (Format ids pcv self u []) = Raise e /\
    snd (FormatSet ids pcv self data calls)
    = snd (FormatSet ids pcv self (pre ++ [u]) calls).
Proof. apply FormatSet_loop_raise. Qed.

End FormatSetUnits.

(** ** Tags *)

Section Tags.

Variable ids : ChannelIds.
Variable pcv : PlantCV.

(** A stage hands on the tag it was given; Consolidation takes it from the
    first entry of the snapshot. *)
Lemma Invoke_tag (t : string) (s : Stage) (inData : StageChannel)
    (out : string * StageChannel) :
  (forall tag, tag_of inData = Some tag -> tag = t) ->
  (is_Consolidation s = true ->
   exists n d rest,
     inData = SnapshotChannel ((n, ODataUnit d) :: rest) /\
     rgbFile (meta d) = t) ->
  Invoke ids pcv s inData = Ret (Some out) ->
  forall tag, tag_of (snd out) = Some tag -> tag = t.
Proof.
  intros Hin Hsnap H tag Htag.
  destruct s; cbn [Invoke] in H;
    unfold WhiteBalance_Invoke, ViewportAdjust_Invoke, BinaryMask_Invoke,
           RigidSegmentation_Invoke, DBSCANSegmentation_Invoke,
           PlantAnalysis_Invoke in H.
  4:{ destruct (Hsnap eq_refl) as (n & d & rest & -> & Hd).
      unfold Consolidation_Invoke in H. cbn [get_formatted] in H.
      destruct (Z.eqb _ _).
      - crunch H. inv H. discriminate Htag.
      - destruct (Z.eqb _ _); [ | discriminate H ].
        destruct (index (stageNames cfg0) 0); cbn [bind] in H;
          [ | discriminate H ].
        destruct (FindOutput _ _); cbn [bind] in H; [ | discriminate H ].
        destruct (index (stageNames cfg0) 1); cbn [bind] in H;
          [ | discriminate H ].
        destruct (FindOutput _ _); cbn [bind] in H; [ | discriminate H ].
        cbn in H. inv H. cbn in Htag. inv Htag. reflexivity. }
  all: destruct inData; try discriminate H; crunch H; inv H;
    cbn [snd tag_of] in Htag; try discriminate Htag;
    apply Hin; exact Htag.
Qed.

Lemma Format_loop_tags (data : DataUnit) (todo : list Stage) :
  forall (inData : StageChannel) (n0 : string) (rest0 : list StageEntry)
         (calls : list call) (h : list StageEntry) (calls' : list call),
    (forall tag, tag_of inData = Some tag -> tag = rgbFile (meta data)) ->
    Format_loop ids pcv todo inData ((n0, ODataUnit data) :: rest0) calls
    = (Ret h, calls') ->
    exists outs : list (string * StageChannel),
      h = ((n0, ODataUnit data) :: rest0) ++ map entry_of outs /\
      Forall (fun o => forall tag, tag_of (snd o) = Some tag ->
                                   tag = rgbFile (meta data)) outs.
Proof.
  induction todo as [| stage rest IH];
    intros inData n0 rest0 calls h calls' Hin H.
  - cbn in H. inv H. exists []. cbn. rewrite app_nil_r.
    split; [ reflexivity | constructor ].
  - cbn [Format_loop] in H.
    set (intmed := (n0, ODataUnit data) :: rest0) in *.
    set (inData' := if Z.eqb (fst (GetInterfaceIDs ids stage))
                             (SnapshotChannel_ID ids)
                    then SnapshotChannel intmed else inData) in *.
    destruct (Invoke ids pcv stage inData') as [[out |] | e] eqn:Hinv;
      try discriminate H.
    assert (Hout : forall tag, tag_of (snd out) = Some tag ->
                               tag = rgbFile (meta data)).
    { apply (Invoke_tag (rgbFile (meta data)) stage inData' out);
        [ | | exact Hinv ].
      - subst inData'. destruct (Z.eqb _ _); [ discriminate | exact Hin ].
      - intro Hc. destruct stage; try discriminate Hc.
        subst inData'. cbn [GetInterfaceIDs fst]. rewrite Z.eqb_refl.
        exists n0, data, rest0. split; reflexivity. }
    subst intmed. cbn [app] in H.
    apply IH in H; [ | exact Hout ].
    destruct H as (outs & Hh & Hall).
    exists (out :: outs). split.
    + rewrite Hh. cbn [app map]. rewrite <- app_assoc. reflexivity.
    + constructor; assumption.
Qed.

(** In the history of a run on a unit, every channel that has a tag has
    the unit's source path as its tag. *)
Theorem Format_tags_are_the_source_path (self : Pipeline) (data : DataUnit)
    (calls calls' : list call) (fd : FormattedData) :
  Format ids pcv self data calls = (Ret (Formatted fd), calls') ->
  forall n c tag,
    In (n, OChannel c) (proc fd) ->
    tag_of c = Some tag ->
    tag = rgbFile (meta data).
Proof.
  unfold Format. destruct (valid (raw data)); cbn [negb]; [ | discriminate ].
  destruct (Format_loop ids pcv (stages (cfg self)) _ _ calls)
    as [[h | e] c1] eqn:Hloop; intro H; inv H.
  apply Format_loop_tags in Hloop; [ | discriminate ].
  destruct Hloop as (outs & -> & Hall).
  intros n c tag Hin Htag. cbn [proc app] in Hin.
  destruct Hin as [Hin | Hin]; [ discriminate Hin | ].
  apply in_map_iff in Hin. destruct Hin as (o & Ho & Hino).
  unfold entry_of in Ho. inv Ho.
  rewrite Forall_forall in Hall. exact (Hall o Hino tag Htag).
Qed.

End Tags.

(** ** Lookups of Consolidation *)

Section Lookups.

Variable ids : ChannelIds.

(** The first entry that carries the name decides the lookup; what comes
    after it in the history does not matter. *)
Theorem FindOutput_first_match_wins (name : string)
    (pre post : list StageEntry) (entry : StageEntry) :
  Forall (fun e => fst e <> name) pre ->
  fst entry = name ->
  FindOutput name (pre ++ entry :: post) = FindOutput name [entry].
Proof.
  intros Hpre Hentry.
  induction Hpre as [| e pre He _ IH]; cbn [app FindOutput].
  - apply String.eqb_eq in Hentry. rewrite Hentry.
    destruct (String.eqb name "Disk"); destruct (snd entry) as [d | [ | | | ]];
      reflexivity.
  - apply String.eqb_neq in He. rewrite He. exact IH.
Qed.

(** A lookup whose first match holds no image raises [AttributeError]:
    under "Disk" only the unit will do, under any other name only a
    single-image channel. *)
Theorem FindOutput_entry_without_image_raises (name n : string)
    (history : list StageEntry) (o : pyobj) :
  first_entry name history = Some (n, o) ->
  match o with
  | ODataUnit _ => name <> "Disk"
  | OChannel c => name = "Disk" \/ variant_of c <> VSingleImage
  end ->
  FindOutput name history = Raise AttributeError.
Proof.
  unfold first_entry.
  induction history as [| entry rest IH]; cbn [find FindOutput]; intros H Ho.
  - discriminate H.
  - destruct (String.eqb (fst entry) name); [ | auto ].
    inv H. cbn [snd].
    destruct (String.eqb_spec name "Disk") as [E | E].
    + destruct o as [d | c]; [ contradiction | reflexivity ].
    + destruct o as [d | c]; [ reflexivity | ].
      destruct Ho as [Ho | Ho]; [ contradiction | ].
      destruct c; first [ reflexivity | exfalso; apply Ho; reflexivity ].
Qed.

(** Consolidation needs one name for a single-image output and two for a
    double-image output: with fewer, [Invoke] raises on every input. *)
Theorem Consolidation_too_few_names_raises (cfg : ConsolidationConfig)
    (inData : StageChannel) :
  (outChannelId cfg = SingleImageChannel_ID ids /\ stageNames cfg = []) \/
  (outChannelId cfg = DoubleImageChannel_ID ids /\
   DoubleImageChannel_ID ids <> SingleImageChannel_ID ids /\
   (List.length (stageNames cfg) < 2)%nat) ->
  exists e, Consolidation_Invoke ids cfg inData = Raise e.
Proof.
  unfold Consolidation_Invoke.
  intros [[Hout Hnames] | (Hout & Hdistinct & Hnames)]; rewrite Hout.
  - rewrite Z.eqb_refl, Hnames. eexists. reflexivity.
  - apply Z.eqb_neq in Hdistinct. rewrite Hdistinct, Z.eqb_refl.
    destruct (stageNames cfg) as [| n0 [| n1 rest]]; cbn in Hnames; try lia.
    + eexists. reflexivity.
    + cbn [index nth_error bind].
      destruct (get_formatted inData) as [formatted | e]; cbn [bind];
        [ | eexists; reflexivity ].
      destruct (FindOutput n0 formatted) as [img | e]; cbn [bind];
        eexists; reflexivity.
Qed.

End Lookups.

(** ** DBSCANSegmentation, extractSubMasks and PlantAnalysis *)

Section Segmentations.

Variable pcv : PlantCV.

Lemma dbscan_loop_contours (p : pyimg) (cMsks : list ndarray) :
  forall (retMsks ms : list ndarray) (retCnts cs : list contour),
    dbscan_loop pcv p cMsks retMsks retCnts = Ret (ms, cs) ->
    exists cnts,
      ms = retMsks ++ cMsks /\ cs = retCnts ++ cnts /\
      Forall2 (fun m c => from_binary_image pcv p m = Ret c) cMsks cnts.
Proof.
  induction cMsks as [| mask rest IH]; intros retMsks ms retCnts cs H.
  - cbn in H. inv H. exists []. rewrite !app_nil_r.
    repeat split; constructor.
  - cbn [dbscan_loop] in H.
    destruct (from_binary_image pcv p mask) as [cnt | e] eqn:Hcnt;
      cbn [bind] in H; [ | discriminate H ].
    apply IH in H. destruct H as (cnts & Hms & Hcs & Hall).
    exists (cnt :: cnts). rewrite Hms, Hcs, <- !app_assoc.
    repeat split. constructor; assumption.
Qed.

(** The channel DBSCANSegmentation returns holds the clusters of its one
    clustering call, in the order they came, and for each of them the
    contour [pcv.roi.from_binary_image] gave, on the primary image and the
    tag of the input. *)
Theorem DBSCANSegmentation_output (cfg : DBSCANSegmentationConfig)
    (p s : pyimg) (tag : string) (out : StageOutput) :
  DBSCANSegmentation_Invoke pcv cfg (DoubleImageChannel p s tag) = Ret out ->
  exists x cMsks cnts,
    spatial_clustering pcv s (minClusterSize cfg) (epsilon cfg)
      = Ret (x, cMsks) /\
    Forall2 (fun m c => from_binary_image pcv p m = Ret c) cMsks cnts /\
    out = Some ("DBSCANSegmentation", SegmentationChannel cnts cMsks p tag).
Proof.
  unfold DBSCANSegmentation_Invoke. intro H.
  destruct (spatial_clustering pcv s (minClusterSize cfg) (epsilon cfg))
    as [[x cMsks] | e]; cbn [bind] in H; [ | discriminate H ].
  destruct (dbscan_loop pcv p cMsks [] []) as [[ms cs] | e] eqn:Hloop;
    cbn [bind] in H; [ | discriminate H ].
  inv H. apply dbscan_loop_contours in Hloop.
  destruct Hloop as (cnts & -> & -> & Hall).
  exists x, cMsks, cnts. repeat split; assumption.
Qed.

(** [extractSubMasks] returns exactly when every mask it is given
    clusters again to one cluster, and then returns them appended as they
    are: it never hands back a part of a mask. *)
Theorem extractSubMasks_returns_only_stable_masks
    (cfg : DBSCANSegmentationConfig) (topLvlMask : list ndarray) :
  forall masks r : list ndarray,
    extractSubMasks pcv cfg topLvlMask masks = Ret r <->
    r = masks ++ topLvlMask /\
    Forall (fun mask =>
              exists x sbMsks,
                spatial_clustering pcv (Arr mask)
                  (minClusterSize cfg) (epsilon cfg) = Ret (x, sbMsks) /\
                List.length sbMsks = 1%nat) topLvlMask.
Proof.
  induction topLvlMask as [| mask rest IH]; intros masks r.
  - cbn. rewrite app_nil_r. split.
    + intro H. inv H. split; [ reflexivity | constructor ].
    + intros [-> _]. reflexivity.
  - cbn [extractSubMasks]. split.
    + intro H.
      destruct (spatial_clustering pcv (Arr mask) _ _)
        as [[x sbMsks] | e] eqn:Hc; cbn [bind] in H; [ | discriminate H ].
      destruct (Nat.eqb_spec (List.length sbMsks) 1) as [Hlen | _];
        [ | discriminate H ].
      apply IH in H. destruct H as [-> Hall]. split.
      * now rewrite <- app_assoc.
      * constructor; [ exists x, sbMsks; split; [ exact Hc | exact Hlen ]
                     | exact Hall ].
    + intros [-> Hall]. inv Hall.
      match goal with
      | H : exists _ _, _ |- _ => destruct H as (x & sbMsks & Hc & Hlen)
      end.
      rewrite Hc. cbn [bind]. rewrite Hlen. cbn [Nat.eqb].
      apply IH. split; [ now rewrite <- app_assoc | assumption ].
Qed.

Lemma analysis_loop_returns (rgb0 : pyimg) (contours : list contour)
    (todo : list ndarray) :
  forall i : nat,
    analysis_loop pcv rgb0 contours todo i = Ret tt ->
    forall j mask,
      nth_error todo j = Some mask ->
      exists cnt r,
        nth_error contours (i + j) = Some cnt /\
        analyze_object pcv rgb0 cnt mask (Z.of_nat (i + j)) = Ret r.
Proof.
  induction todo as [| m rest IH]; intros i H j mask Hj.
  - destruct j; discriminate Hj.
  - cbn [analysis_loop] in H. unfold index in H.
    destruct (nth_error contours i) as [cnt |] eqn:Hcnt;
      cbn [bind] in H; [ | discriminate H ].
    destruct (analyze_object pcv rgb0 cnt m (Z.of_nat i)) as [r | e] eqn:Ha;
      cbn [bind] in H; [ | discriminate H ].
    destruct j as [| j]; cbn [nth_error] in Hj.
    + inv Hj. exists cnt, r. rewrite Nat.add_0_r. split; assumption.
    + rewrite <- plus_n_Sm. exact (IH (S i) H j mask Hj).
Qed.

(** PlantAnalysis returns only on a segmentation channel that has a
    contour for every mask, after [pcv.analyze_object] returned for each
    pair and the results were saved; what it returns is the empty
    snapshot. *)
Theorem PlantAnalysis_returns_only_after_every_mask
    (cfg : PlantAnalysisConfig) (inData : StageChannel) (out : StageOutput) :
  PlantAnalysis_Invoke pcv cfg inData = Ret out ->
  exists contours masks rgb0 tag,
    inData = SegmentationChannel contours masks rgb0 tag /\
    (List.length masks <= List.length contours)%nat /\
    (forall i mask,
        nth_error masks i = Some mask ->
        exists cnt r,
          nth_error contours i = Some cnt /\
          analyze_object pcv rgb0 cnt mask (Z.of_nat i) = Ret r) /\
    save_and_stamp_results pcv cfg tag (List.length masks) = Ret tt /\
    out = Some ("PlantAnalysis", SnapshotChannel []).
Proof.
  unfold PlantAnalysis_Invoke. intro H.
  destruct inData as [ | | | contours masks rgb0 tag]; try discriminate H.
  destruct (analysis_loop pcv rgb0 contours masks 0) as [[] | e] eqn:Hloop;
    cbn [bind] in H; [ | discriminate H ].
  destruct (outputFile cfg tag) as [name | e];
    cbn [bind] in H; [ | discriminate H ].
  destruct (save_and_stamp_results pcv cfg tag (List.length masks))
    as [[] | e] eqn:Hsave; cbn [bind] in H; [ | discriminate H ].
  inv H. exists contours, masks, rgb0, tag.
  pose proof (analysis_loop_returns rgb0 contours masks 0 Hloop) as Hall.
  cbn [Nat.add] in Hall.
  split; [ reflexivity | ].
  split; [ | split; [ exact Hall | split; [ exact Hsave | reflexivity ] ] ].
  destruct (Nat.le_gt_cases (List.length masks) (List.length contours))
    as [Hle | Hgt]; [ exact Hle | exfalso ].
  destruct (nth_error masks (List.length contours)) as [mask |] eqn:Hm.
  - destruct (Hall _ _ Hm) as (cnt & _ & Hc & _).
    assert (Hlt : (List.length contours < List.length contours)%nat)
      by (apply nth_error_Some; congruence).
    lia.
  - apply nth_error_None in Hm. lia.
Qed.

End Segmentations.

(** ** Construction of a pipeline, and the pipelines of Main.py *)

Section Construction.

Variable ids : ChannelIds.

(** On a non-empty stage list the constructor returns the pipeline on
    that configuration when every consecutive pair is compatible, and
    exits with status 2 otherwise. *)
Theorem Pipeline_init_outcome (c : PipelineConfig) (s : Stage)
    (rest : list Stage) :
  stages c = s :: rest ->
  (every_pair_compatible ids (stages c) /\
   Pipeline_init ids c = Ret {| cfg := c |}) \/
  (~ every_pair_compatible ids (stages c) /\
   Pipeline_init ids c = Raise (SystemExit 2)).
Proof.
  intro Hstages. unfold Pipeline_init, IsCompatible. rewrite Hstages.
  cbn [index nth_error bind tl].
  pose proof (compat_loop_spec ids s rest) as Hspec.
  destruct (compat_loop ids (GetInterfaceIDs ids s) rest); cbn [negb].
  - left. split; [ now apply Hspec | reflexivity ].
  - right. split; [ | reflexivity ].
    intro H. apply Hspec in H. discriminate H.
Qed.

(** The four pipelines of [Main.py] are constructed whatever identifiers
    the run has drawn. *)
Theorem Main_pipelines_are_constructed :
  Pipeline_init ids (Main.rCfg_2 ids) = Ret {| cfg := Main.rCfg_2 ids |} /\
  Pipeline_init ids (Main.rCfg_3a ids) = Ret {| cfg := Main.rCfg_3a ids |} /\
  Pipeline_init ids (Main.rCfg_3b ids) = Ret {| cfg := Main.rCfg_3b ids |} /\
  Pipeline_init ids (Main.dbscanCfg ids)
  = Ret {| cfg := Main.dbscanCfg ids |}.
Proof.
  unfold Pipeline_init, IsCompatible.
  repeat split;
    cbn [Main.rCfg_2 Main.rCfg_3a Main.rCfg_3b Main.dbscanCfg stages
         index nth_error bind tl compat_loop GetInterfaceIDs fst snd
         Main.wb Main.va Main.bm Main.cs_A Main.cs_B Main.cs_C Main.rSeg_2
         Main.rSeg_3a Main.rSeg_3b Main.segDB Main.analysis outChannelId];
    rewrite !Z.eqb_refl; cbn [negb andb];
    rewrite ?andb_false_r; reflexivity.
Qed.

End Construction.

(** ** The output file name *)

Lemma append_empty_r (s : string) : String.append s EmptyString = s.
Proof. induction s as [| c s IH]; cbn; [ reflexivity | now rewrite IH ]. Qed.

Lemma append_snoc (s t : string) (c : ascii) :
  String.append (String.append s (String c EmptyString)) t
  = String.append s (String c t).
Proof. induction s as [| a s IH]; cbn; [ reflexivity | now rewrite IH ]. Qed.

Lemma split_go_nonempty (sep s : string) :
  forall (skip : nat) (cur : string),
    exists x xs, split_go sep s skip cur = x :: xs.
Proof.
  induction s as [| c rest IH]; intros skip cur; cbn [split_go].
  - eexists. eexists. reflexivity.
  - destruct skip; [ | apply IH ].
    destruct (String.prefix sep (String c rest)); [ | apply IH ].
    eexists. eexists. reflexivity.
Qed.

(** Without an occurrence of the separator the string comes back whole. *)
Lemma split_go_no_occurrence (sep s : string) :
  forall cur : string,
    occurs sep s = false ->
    split_go sep s 0 cur = [String.append cur s].
Proof.
  induction s as [| c rest IH]; intros cur H; cbn [split_go occurs] in *.
  - now rewrite append_empty_r.
  - apply orb_false_iff in H. destruct H as [Hp Ho].
    rewrite Hp, (IH _ Ho), append_snoc. reflexivity.
Qed.

(** With an occurrence there are at least two pieces. *)
Lemma split_go_occurrence (sep s : string) :
  sep <> EmptyString ->
  forall cur : string,
    occurs sep s = true ->
    exists a b rest, split_go sep s 0 cur = a :: b :: rest.
Proof.
  intro Hsep.
  induction s as [| c rest IH]; intros cur H; cbn [split_go occurs] in *.
  - destruct sep; [ contradiction | discriminate H ].
  - destruct (String.prefix sep (String c rest)).
    + destruct (split_go_nonempty sep rest (String.length sep - 1)
                  EmptyString) as (x & xs & ->).
      eexists. eexists. eexists. reflexivity.
    + cbn [orb] in H. apply IH. exact H.
Qed.

Lemma replace_char_chars (old new : ascii) (s : string) (c : ascii) :
  In c (list_ascii_of_string (replace_char old new s)) ->
  c = new \/ (c <> old /\ In c (list_ascii_of_string s)).
Proof.
  induction s as [| a s IH]; cbn [replace_char list_ascii_of_string In].
  - contradiction.
  - intros [H | H].
    + destruct (Ascii.eqb_spec a old) as [E | E].
      * left. now symmetry.
      * right. subst c. split; [ exact E | now left ].
    + destruct (IH H) as [-> | [Hc Hin]]; [ now left | ].
      right. split; [ exact Hc | now right ].
Qed.

(** A tag without "image_" has no file name: the second piece of the
    split does not exist and [IndexError] is raised. *)
Theorem outputFile_needs_image_in_tag (cfg : PlantAnalysisConfig)
    (tag : string) :
  occurs "image_" tag = false ->
  outputFile cfg tag = Raise IndexError.
Proof.
  intro H. unfold outputFile, stem_of_tag, split.
  rewrite (split_go_no_occurrence "image_" tag EmptyString H).
  reflexivity.
Qed.

(** For a tag with "image_" the name is built, and no space or hyphen is
    left in it, those of the configured [outfile] included. *)
Theorem outputFile_has_no_space_or_hyphen (cfg : PlantAnalysisConfig)
    (tag : string) :
  occurs "image_" tag = true ->
  exists f,
    outputFile cfg tag = Ret f /\
    forall c, In c (list_ascii_of_string f) ->
              c <> " "%char /\ c <> "-"%char.
Proof.
  intro H. unfold outputFile, stem_of_tag, split.
  destruct (split_go_occurrence "image_" tag ltac:(discriminate)
              EmptyString H) as (a & after & rest & ->).
  cbn [index nth_error bind].
  destruct (split_go_nonempty "/" after 0 EmptyString) as (x & xs & ->).
  assert (Hlast : exists file, index_last (x :: xs) = Ret file).
  { unfold index_last. destruct (rev (x :: xs)) as [| y ys] eqn:Hrev.
    - apply (f_equal (@List.length string)) in Hrev.
      rewrite length_rev in Hrev. discriminate Hrev.
    - eexists. reflexivity. }
  destruct Hlast as (file & ->). cbn [bind].
  destruct (split_go_nonempty "." file 0 EmptyString) as (stem & ys & ->).
  cbn [index nth_error bind].
  eexists. split; [ reflexivity | ].
  intros c Hc.
  apply replace_char_chars in Hc. destruct Hc as [-> | [Hhyphen Hc]].
  - split; discriminate.
  - apply replace_char_chars in Hc. destruct Hc as [-> | [Hspace _]].
    + split; discriminate.
    + split; assumption.
Qed.

(** ** The loader, and the loader with the pipeline *)

Section LoaderFacts.

Variable env : LoaderEnv.

(** What [GenRaw] returns is valid exactly when it carries the image read
    from the file; an invalid result carries [0]. *)
Lemma GenRaw_returns (m : MetaData) (r : RawData) :
  GenRaw env m = Ret r ->
  (valid r = true /\ readimage env (rgbFile m) = Ret (rgb r)) \/
  (valid r = false /\ rgb r = Int 0).
Proof.
  unfold GenRaw. intro H.
  destruct (readimage env (rgbFile m)) as [img | e];
    cbn [bind] in H; [ | discriminate H ].
  destruct (np_average env img) as [avg | e];
    cbn [bind] in H; [ | discriminate H ].
  destruct (float_lt avg (50 # 1)); inv H; [ right | left ];
    split; reflexivity.
Qed.

Lemma LoadDir_loop_returns (jpgs : list string) :
  forall data out : list DataUnit,
    LoadDir_loop env jpgs data = Ret out ->
    exists new,
      out = data ++ new /\
      map (fun u => rgbFile (meta u)) new = filter (day_image env) jpgs /\
      Forall (fun u =>
                valid (raw u) = true /\
                timestamp (meta u) = EmptyString /\
                readimage env (rgbFile (meta u)) = Ret (rgb (raw u))) new.
Proof.
  induction jpgs as [| name rest IH]; intros data out H.
  - cbn in H. inv H. exists []. rewrite app_nil_r.
    repeat split; constructor.
  - cbn [LoadDir_loop filter] in *. unfold day_image at 1.
    destruct (GenRaw env {| timestamp := GetTimestamp name; rgbFile := name |})
      as [r | e] eqn:Hraw; cbn [bind] in H; [ | discriminate H ].
    destruct (valid r) eqn:Hvalid.
    + apply IH in H. destruct H as (new & -> & Hnames & Hall).
      exists ({| raw := r;
                 meta := {| timestamp := GetTimestamp name;
                            rgbFile := name |} |} :: new).
      rewrite <- app_assoc. cbn [map app meta rgbFile]. rewrite Hnames.
      repeat split. constructor; [ | exact Hall ].
      cbn [raw meta timestamp rgbFile].
      destruct (GenRaw_returns _ _ Hraw) as [[_ Hread] | [Hv _]];
        [ | congruence ].
      repeat split; assumption.
    + apply IH in H. exact H.
Qed.

Lemma LoadDir_units_are_valid (path : string) (data : list DataUnit) :
  LoadDir env path = Ret data ->
  Forall (fun u => valid (raw u) = true) data.
Proof.
  unfold LoadDir. intro H. apply LoadDir_loop_returns in H.
  destruct H as (new & -> & _ & Hall). cbn [app].
  eapply Forall_impl; [ | exact Hall ]. intros u Hu. apply Hu.
Qed.

(** The units [LoadDir] returns are the files of the directory listing
    that load as valid images, in listing order; each is valid, has the
    empty timestamp, and carries the image read from its file. *)
Theorem LoadDir_returns_the_valid_images (path : string)
    (data : list DataUnit) :
  LoadDir env path = Ret data ->
  map (fun u => rgbFile (meta u)) data
  = filter (day_image env) (glob env (String.append path "*.jpg")) /\
  Forall (fun u =>
            valid (raw u) = true /\
            timestamp (meta u) = EmptyString /\
            readimage env (rgbFile (meta u)) = Ret (rgb (raw u))) data.
Proof.
  unfold LoadDir. intro H. apply LoadDir_loop_returns in H.
  destruct H as (new & -> & Hnames & Hall). cbn [app].
  split; assumption.
Qed.

Lemma LoadDir_loop_returns_iff (jpgs : list string) :
  forall data : list DataUnit,
    (exists out, LoadDir_loop env jpgs data = Ret out) <->
    Forall (fun name =>
              exists r,
                GenRaw env {| timestamp := GetTimestamp name;
                              rgbFile := name |} = Ret r) jpgs.
Proof.
  induction jpgs as [| name rest IH]; intro data; cbn [LoadDir_loop].
  - split; [ constructor | intros _; eexists; reflexivity ].
  - destruct (GenRaw env {| timestamp := GetTimestamp name; rgbFile := name |})
      as [r | e] eqn:Hraw; cbn [bind].
    + split.
      * intro H. constructor; [ exists r; exact Hraw | ].
        destruct (valid r); eapply IH; exact H.
      * intro H. inv H. destruct (valid r); apply IH; assumption.
    + split.
      * intros [out H]. discriminate H.
      * intro H. inv H.
        match goal with
        | H : exists _, _ |- _ => destruct H as [r H]; congruence
        end.
Qed.

(** [LoadDir] returns exactly when every file of the listing can be read
    and averaged: one file that cannot aborts the load, the files loaded
    before it included. *)
Theorem LoadDir_returns_iff_every_file_loads (path : string) :
  (exists data, LoadDir env path = Ret data) <->
  Forall (fun name =>
            exists r,
              GenRaw env {| timestamp := GetTimestamp name;
                            rgbFile := name |} = Ret r)
         (glob env (String.append path "*.jpg")).
Proof. apply LoadDir_loop_returns_iff. Qed.

Variable ids : ChannelIds.
Variable pcv : PlantCV.

(** On the units of [LoadDir], [FormatSet] never has the integer [0] in
    the list it returns: every entry is a [FormattedData], one per
    unit. *)
Theorem FormatSet_of_loaded_units (self : Pipeline) (path : string)
    (data : list DataUnit) (calls calls' : list call)
    (out : list FormatResult) :
  LoadDir env path = Ret data ->
  FormatSet ids pcv self data calls = (Ret out, calls') ->
  List.length out = List.length data /\
  Forall2 (fun u r => exists fd, r = Formatted fd /\ base fd = raw u)
          data out.
Proof.
  intros Hload Hset.
  apply LoadDir_units_are_valid in Hload.
  apply FormatSet_loop_returns in Hset.
  destruct Hset as (rs & Hout & Hall). cbn [app] in Hout. subst rs.
  split; [ symmetry; exact (Forall2_length Hall) | ].
  clear - Hload Hall.
  induction Hall as [| u r data out Hur _ IH]; [ constructor | ].
  inv Hload. constructor; [ | apply IH; assumption ].
  unfold result_of_unit in Hur.
  match goal with H : valid (raw u) = true |- _ => rewrite H in Hur end.
  exact Hur.
Qed.

End LoaderFacts.

(** ** The added theorems on the sample instance *)

Lemma Sample_ids_pairwise_distinct : pairwise_distinct Sample.ids.
Proof. vm_compute. repeat split; discriminate. Qed.

Lemma Sample_roi_result_returns (p : pyimg) (objs : list contour)
    (objH : hierarchy) (roi : contour) (rh : hierarchy) :
  exists r, roi_result Sample.pcv p objs objH roi rh = Ret r.
Proof.
  unfold roi_result. cbn [Sample.pcv roi_objects object_composition bind].
  destruct (Z.leb _ 0); eexists; reflexivity.
Qed.

Lemma Pipeline_init_outcome_witness :
  (every_pair_compatible Sample.ids (stages (cfg Sample.r_pipe)) /\
   Pipeline_init Sample.ids (cfg Sample.r_pipe)
   = Ret {| cfg := cfg Sample.r_pipe |}) \/
  (~ every_pair_compatible Sample.ids (stages (cfg Sample.r_pipe)) /\
   Pipeline_init Sample.ids (cfg Sample.r_pipe) = Raise (SystemExit 2)).
Proof.
  apply (Pipeline_init_outcome Sample.ids (cfg Sample.r_pipe) Sample.bm
           [Sample.cs_C; Sample.rSeg; Sample.analysis]).
  reflexivity.
Defined.

Lemma Invoke_returns_only_on_declared_input_witness :
  variant_of (SingleImageChannel Sample.three_plants)
  = input_variant Sample.bm.
Proof.
  apply (Invoke_returns_only_on_declared_input Sample.ids Sample.pcv
           Sample.bm (SingleImageChannel Sample.three_plants)
           ("BinaryMask", SingleImageChannel Sample.three_plants)).
  reflexivity.
Defined.

Lemma Invoke_other_variant_raises_witness :
  Invoke Sample.ids Sample.pcv Sample.rSeg
         (SingleImageChannel Sample.three_plants)
  = Raise AttributeError.
Proof.
  apply (Invoke_other_variant_raises Sample.ids Sample.pcv Sample.rSeg
           (SingleImageChannel Sample.three_plants)).
  - reflexivity.
  - cbn. discriminate.
Defined.

Lemma Invoke_output_as_declared_witness :
  fst ("BinaryMask", SingleImageChannel Sample.three_plants)
  = GetName Sample.bm /\
  id_of Sample.ids
        (variant_of (snd ("BinaryMask",
                          SingleImageChannel Sample.three_plants)))
  = snd (GetInterfaceIDs Sample.ids Sample.bm).
Proof.
  apply (Invoke_output_as_declared Sample.ids Sample.pcv Sample.bm
           (SingleImageChannel Sample.three_plants)).
  reflexivity.
Defined.

Lemma compatible_pipeline_is_well_typed_witness :
  exists new,
    snd (Format Sample.ids Sample.pcv Sample.r_pipe Sample.day [])
    = [] ++ new /\
    Forall (fun c : call => variant_of (snd c) = input_variant (fst c)) new.
Proof.
  apply (compatible_pipeline_is_well_typed Sample.ids Sample.pcv
           Sample.r_pipe Sample.day [] Sample.bm
           [Sample.cs_C; Sample.rSeg; Sample.analysis]).
  - exact Sample_ids_pairwise_distinct.
  - reflexivity.
  - reflexivity.
  - left. reflexivity.
Defined.

Lemma first_stage_input_is_not_checked_witness :
  Pipeline_init Sample.ids {| options := Sample.opts; stages := [Sample.rSeg] |}
  = Ret {| cfg := {| options := Sample.opts; stages := [Sample.rSeg] |} |} /\
  exists c,
    Format Sample.ids Sample.pcv
           {| cfg := {| options := Sample.opts;
                        stages := Sample.rSeg :: [Sample.analysis] |} |}
           Sample.day []
    = (Raise AttributeError, [] ++ [(Sample.rSeg, c)]).
Proof.
  apply (first_stage_input_is_not_checked Sample.ids Sample.pcv Sample.opts
           Sample.rSeg [Sample.analysis] Sample.day []).
  - left. reflexivity.
  - reflexivity.
Defined.


Lemma Format_raise_stops_at_failing_stage_witness :
  exists calls',
    Format Sample.ids Sample.pcv SampleDir.ill_typed Sample.day []
    = (Raise AttributeError, calls') /\
    exists (pre : list Stage) (s : Stage) (post : list Stage)
           (c : StageChannel) (before : list call),
      stages (cfg SampleDir.ill_typed) = pre ++ s :: post /\
      calls' = [] ++ before ++ [(s, c)] /\
      map fst before = pre /\
      Forall (fun k : call =>
                exists out,
                  Invoke Sample.ids Sample.pcv (fst k) (snd k)
                  = Ret (Some out)) before /\
      (Invoke Sample.ids Sample.pcv s c = Raise AttributeError \/
       (Invoke Sample.ids Sample.pcv s c = Ret None /\
        AttributeError = TypeError)).
Proof.
  eexists. split; [ reflexivity | ].
  eapply (Format_raise_stops_at_failing_stage Sample.ids Sample.pcv
            SampleDir.ill_typed Sample.day []).
  reflexivity.
Defined.

Lemma FormatSet_raise_stops_at_failing_unit_witness :
  exists (pre : list DataUnit) (u : DataUnit) (post : list DataUnit),
    [Sample.night; Sample.day; Sample.day] = pre ++ u :: post /\
    Forall (fun v => exists r,
                fst (Format Sample.ids Sample.pcv SampleDir.ill_typed v [])
                = Ret r) pre /\
    fst (Format Sample.ids Sample.pcv SampleDir.ill_typed u [])
    = Raise AttributeError /\
    snd (FormatSet Sample.ids Sample.pcv SampleDir.ill_typed
                   [Sample.night; Sample.day; Sample.day] [])
    = snd (FormatSet Sample.ids Sample.pcv SampleDir.ill_typed
                     (pre ++ [u]) []).
Proof.
  apply (FormatSet_raise_stops_at_failing_unit Sample.ids Sample.pcv
           SampleDir.ill_typed [Sample.night; Sample.day; Sample.day] []).
  reflexivity.
Defined.

Lemma Format_tags_are_the_source_path_witness :
  exists fd calls',
    Format Sample.ids Sample.pcv Sample.r_pipe Sample.day []
    = (Ret (Formatted fd), calls') /\
    forall n c tag,
      In (n, OChannel c) (proc fd) ->
      tag_of c = Some tag ->
      tag = rgbFile (meta Sample.day).
Proof.
  eexists. eexists. split; [ reflexivity | ].
  eapply (Format_tags_are_the_source_path Sample.ids Sample.pcv
            Sample.r_pipe Sample.day []).
  reflexivity.
Defined.

Lemma FindOutput_first_match_wins_witness :
  FindOutput "BinaryMask"
    ([("Disk", ODataUnit Sample.day)] ++
     ("BinaryMask", OChannel (SingleImageChannel (Arr [[1]]))) ::
     [("BinaryMask", OChannel (SingleImageChannel (Arr [[2]])))])
  = FindOutput "BinaryMask"
      [("BinaryMask", OChannel (SingleImageChannel (Arr [[1]])))].
Proof.
  apply (FindOutput_first_match_wins "BinaryMask"
           [("Disk", ODataUnit Sample.day)]
           [("BinaryMask", OChannel (SingleImageChannel (Arr [[2]])))]
           ("BinaryMask", OChannel (SingleImageChannel (Arr [[1]])))).
  - constructor; [ cbn; discriminate | constructor ].
  - reflexivity.
Defined.

Lemma FindOutput_entry_without_image_raises_witness :
  FindOutput "Consolidation"
    [("Disk", ODataUnit Sample.day);
     ("Consolidation",
      OChannel (DoubleImageChannel Sample.three_plants Sample.three_plants
                                   "image_2023-02-13 16_52_27.jpg"))]
  = Raise AttributeError.
Proof.
  apply (FindOutput_entry_without_image_raises "Consolidation"
           "Consolidation"
           [("Disk", ODataUnit Sample.day);
            ("Consolidation",
             OChannel (DoubleImageChannel Sample.three_plants
                         Sample.three_plants
                         "image_2023-02-13 16_52_27.jpg"))]
           (OChannel (DoubleImageChannel Sample.three_plants
                        Sample.three_plants
                        "image_2023-02-13 16_52_27.jpg"))).
  - reflexivity.
  - right. cbn. discriminate.
Defined.

Lemma Consolidation_too_few_names_raises_witness :
  exists e,
    Consolidation_Invoke Sample.ids
      {| stageNames := ["Disk"];
         outChannelId := DoubleImageChannel_ID Sample.ids |}
      (SnapshotChannel [("Disk", ODataUnit Sample.day)])
    = Raise e.
Proof.
  apply (Consolidation_too_few_names_raises Sample.ids
           {| stageNames := ["Disk"];
              outChannelId := DoubleImageChannel_ID Sample.ids |}
           (SnapshotChannel [("Disk", ODataUnit Sample.day)])).
  right. split; [ reflexivity | split ].
  - vm_compute. discriminate.
  - cbn. lia.
Defined.

Lemma Consolidation_Disk_BinaryMask_in_run_witness :
  exists m,
    first_entry "BinaryMask"
      [("Disk", ODataUnit Sample.day);
       ("BinaryMask", OChannel (SingleImageChannel (Arr [[1]])))]
    = Some ("BinaryMask", OChannel (SingleImageChannel m)) /\
    Consolidation_Invoke Sample.ids Sample.cs_C_cfg
      (SnapshotChannel
         [("Disk", ODataUnit Sample.day);
          ("BinaryMask", OChannel (SingleImageChannel (Arr [[1]])))])
    = Ret (Some ("Consolidation",
                 DoubleImageChannel (rgb (raw Sample.day)) m
                                    (rgbFile (meta Sample.day)))).
Proof.
  apply (Consolidation_Disk_BinaryMask_in_run Sample.ids Sample.cs_C_cfg
           Sample.day).
  - reflexivity.
  - reflexivity.
  - vm_compute. discriminate.
  - exists [("BinaryMask", OChannel (SingleImageChannel (Arr [[1]])))].
    split; [ reflexivity | ].
    constructor; [ | constructor ].
    split; [ cbn; discriminate | ].
    intros _. eexists. reflexivity.
  - cbn. right. left. reflexivity.
Defined.

Lemma RigidSegmentation_returns_witness :
  exists oContours oMasks,
    RigidSegmentation_Invoke Sample.pcv Sample.grid2x2
      (DoubleImageChannel Sample.three_plants Sample.three_plants
                          "image_2023-02-13 16_52_27.jpg")
    = Ret (Some ("RigidSegmentation",
                 SegmentationChannel oContours oMasks Sample.three_plants
                                     "image_2023-02-13 16_52_27.jpg")).
Proof.
  apply (RigidSegmentation_returns Sample.pcv Sample.grid2x2
           Sample.three_plants Sample.three_plants
           "image_2023-02-13 16_52_27.jpg"
           [[(0, 0)]; [(10, 0)]; [(0, 10)]] []
           [[(0, 0)]; [(10, 0)]; [(0, 10)]; [(10, 10)]] [[]; []; []; []]).
  - reflexivity.
  - reflexivity.
  - cbn. lia.
  - intros roi rh. apply Sample_roi_result_returns.
Defined.

Lemma DBSCANSegmentation_output_witness :
  exists x cMsks cnts,
    spatial_clustering Sample.pcv Sample.splitting_mask
      (minClusterSize Sample.segDB_cfg) (epsilon Sample.segDB_cfg)
    = Ret (x, cMsks) /\
    Forall2 (fun m c => from_binary_image Sample.pcv Sample.three_plants m
                        = Ret c) cMsks cnts /\
    Some ("DBSCANSegmentation",
          SegmentationChannel [[(1, 1); (5, 5)]] [[[1; 1]; [5; 5]]]
                              Sample.three_plants
                              "image_2023-02-13 16_52_27.jpg")
    = Some ("DBSCANSegmentation",
            SegmentationChannel cnts cMsks Sample.three_plants
                                "image_2023-02-13 16_52_27.jpg").
Proof.
  apply (DBSCANSegmentation_output Sample.pcv Sample.segDB_cfg
           Sample.three_plants Sample.splitting_mask
           "image_2023-02-13 16_52_27.jpg").
  reflexivity.
Defined.

Lemma PlantAnalysis_returns_only_after_every_mask_witness :
  exists contours masks rgb0 tag,
    SegmentationChannel [[(0, 0)]; []] [[[1]]; []] Sample.three_plants
                        "image_2023-02-13 16_52_27.jpg"
    = SegmentationChannel contours masks rgb0 tag /\
    (List.length masks <= List.length contours)%nat /\
    (forall i mask,
        nth_error masks i = Some mask ->
        exists cnt r,
          nth_error contours i = Some cnt /\
          analyze_object Sample.pcv rgb0 cnt mask (Z.of_nat i) = Ret r) /\
    save_and_stamp_results Sample.pcv
      {| filetype := "csv"; outfile := "data" |} tag (List.length masks)
    = Ret tt /\
    Some ("PlantAnalysis", SnapshotChannel [])
    = Some ("PlantAnalysis", SnapshotChannel []).
Proof.
  apply (PlantAnalysis_returns_only_after_every_mask Sample.pcv
           {| filetype := "csv"; outfile := "data" |}
           (SegmentationChannel [[(0, 0)]; []] [[[1]]; []]
              Sample.three_plants "image_2023-02-13 16_52_27.jpg")).
  reflexivity.
Defined.

Lemma outputFile_needs_image_in_tag_witness :
  outputFile {| filetype := "csv"; outfile := "data" |} "/data/plant.jpg"
  = Raise IndexError.
Proof.
  apply (outputFile_needs_image_in_tag
           {| filetype := "csv"; outfile := "data" |} "/data/plant.jpg").
  reflexivity.
Defined.

Lemma outputFile_has_no_space_or_hyphen_witness :
  exists f,
    outputFile {| filetype := "csv"; outfile := "/out-dir/data" |}
               "/data/image_2023-02-13 16_52_27.jpg"
    = Ret f /\
    forall c, In c (list_ascii_of_string f) ->
              c <> " "%char /\ c <> "-"%char.
Proof.
  apply (outputFile_has_no_space_or_hyphen
           {| filetype := "csv"; outfile := "/out-dir/data" |}
           "/data/image_2023-02-13 16_52_27.jpg").
  reflexivity.
Defined.

Lemma LoadDir_returns_the_valid_images_witness :
  exists data,
    LoadDir SampleDir.env "/data/" = Ret data /\
    map (fun u => rgbFile (meta u)) data
    = filter (day_image SampleDir.env)
             (glob SampleDir.env (String.append "/data/" "*.jpg")) /\
    Forall (fun u =>
              valid (raw u) = true /\
              timestamp (meta u) = EmptyString /\
              readimage SampleDir.env (rgbFile (meta u)) = Ret (rgb (raw u)))
           data.
Proof.
  eexists. split; [ reflexivity | ].
  apply (LoadDir_returns_the_valid_images SampleDir.env "/data/").
  reflexivity.
Defined.

Lemma FormatSet_of_loaded_units_witness :
  exists data out calls',
    LoadDir SampleDir.env "/data/" = Ret data /\
    FormatSet Sample.ids Sample.pcv Sample.r_pipe data [] = (Ret out, calls') /\
    List.length out = List.length data /\
    Forall2 (fun u r => exists fd, r = Formatted fd /\ base fd = raw u)
            data out.
Proof.
  eexists. eexists. eexists.
  split; [ reflexivity | ]. split; [ reflexivity | ].
  eapply (FormatSet_of_loaded_units SampleDir.env Sample.ids Sample.pcv
            Sample.r_pipe "/data/" _ []); reflexivity.
Defined.
